(** * A Northwind OData proxy behind the SAP destination service

    Shallow embedding of [src/server.js]: an Express application whose
    data routes run three outbound HTTP calls in sequence (token
    exchange, destination lookup, OData read) and relay the JSON answer.

    The upstream services are a parameter of the development: a step
    function that answers every outbound request from a state of its own.
    The JavaScript code is written in a state-and-exception monad over a
    [world] that records the upstream state, the outbound calls made so
    far, the lines written with [console.error], and the
    [DESTINATION_NAME] environment variable. *)

From Stdlib Require Import String Ascii List ZArith Bool Lia DecimalString.
Import ListNotations.

Set Warnings "-register-all".

Local Open Scope Z_scope.
Local Open Scope string_scope.

(** ** JavaScript values met by the program *)

(** A response body as axios hands it over in [response.data]: parsed
    JSON, or (when the body is not JSON) the raw text as a [JStr].  A
    number is carried by the text JavaScript's number-to-string conversion
    gives for it.  [JObj] lists the own properties of the parsed object,
    one entry per key. *)
Inductive json : Type :=
| JNull
| JBool (b : bool)
| JNum (text : string)
| JStr (s : string)
| JArr (items : list json)
| JObj (fields : list (string * json)).

(** A value that may also be [undefined] (the result of reading a missing
    property). *)
Definition value : Type := option json.
Definition undefined : value := None.

(** [Array.prototype.join]. *)
Fixpoint join (sep : string) (xs : list string) : string :=
  match xs with
  | [] => ""
  | [x] => x
  | x :: rest => x ++ sep ++ join sep rest
  end.

(** String conversion of a JSON value, as a template literal does it. *)
Fixpoint toString (j : json) : string :=
  match j with
  | JNull => "null"
  | JBool true => "true"
  | JBool false => "false"
  | JNum text => text
  | JStr s => s
  | JArr items =>
      join "," (map (fun x => match x with JNull => "" | _ => toString x end) items)
  | JObj _ => "[object Object]"
  end.

(** [`${v}`] *)
Definition template (v : value) : string :=
  match v with
  | None => "undefined"
  | Some j => toString j
  end.

(** Decimal rendering of an HTTP status code. *)
Definition decimal (n : Z) : string := NilZero.string_of_int (Z.to_int n).

(** Own-property lookup in a parsed object. *)
Fixpoint lookup (name : string) (fields : list (string * json)) : value :=
  match fields with
  | [] => None
  | (k, v) :: rest => if String.eqb k name then Some v else lookup name rest
  end.

(** ** Outbound HTTP *)

Inductive method : Type := GET | POST.

(** The arguments of one axios call.  [req_data] is the [URLSearchParams]
    body of a POST (sent form-encoded); [req_auth] is the [auth] option
    (HTTP Basic); [req_headers] is the [headers] option. *)
Record request : Type := {
  req_method : method;
  req_url : string;
  req_data : option (list (string * string));
  req_auth : option (string * string);
  req_headers : list (string * string)
}.

(** What the upstream does with a request: it answers with a status and a
    body, or there is no answer at all (network failure). *)
Inductive outcome : Type :=
| Replied (status : Z) (data : json)
| NoReply (message : string).

(** The default [validateStatus] of axios. *)
Definition validateStatus (status : Z) : bool :=
  ((200 <=? status) && (status <? 300))%Z.

(** ** Exceptions *)

(** [err.response], when present, carries the upstream status and body. *)
Inductive exn : Type :=
| AxiosError (message : string) (response : option (Z * json))
| TypeError (message : string).

Definition message (err : exn) : string :=
  match err with
  | AxiosError m _ => m
  | TypeError m => m
  end.

Definition err_response (err : exn) : option (Z * json) :=
  match err with
  | AxiosError _ r => r
  | TypeError _ => None
  end.

(** ** Console and HTTP responses *)

Inductive logarg : Type :=
| LStr (s : string)
| LNum (n : Z)
| LJson (j : json).

Inductive body : Type :=
| Text (s : string)
| Json (j : json).

Record response : Type := {
  status : Z;
  payload : body
}.

(** ** The world and the monad *)

Record world (U : Type) : Type := {
  up : U;
  calls : list request;
  console : list (list logarg);
  DESTINATION_NAME : option string
}.
Arguments up {U} _.
Arguments calls {U} _.
Arguments console {U} _.
Arguments DESTINATION_NAME {U} _.

Inductive result (A : Type) : Type :=
| Return (a : A)
| Throw (err : exn).
Arguments Return {A} _.
Arguments Throw {A} _.

Definition M (U A : Type) : Type := world U -> result A * world U.

Definition ret {U A} (a : A) : M U A := fun w => (Return a, w).

Definition throw {U A} (err : exn) : M U A := fun w => (Throw err, w).

Definition bind {U A B} (m : M U A) (k : A -> M U B) : M U B :=
  fun w =>
    match m w with
    | (Return a, w') => k a w'
    | (Throw err, w') => (Throw err, w')
    end.

Definition try_catch {U A} (m : M U A) (handler : exn -> M U A) : M U A :=
  fun w =>
    match m w with
    | (Return a, w') => (Return a, w')
    | (Throw err, w') => handler err w'
    end.

Declare Scope js_scope.
Delimit Scope js_scope with js.
Notation "x <- m ;; k" := (bind m (fun x => k))
  (at level 100, m at next level, right associativity) : js_scope.
Notation "m ;; k" := (bind m (fun _ => k))
  (at level 100, right associativity) : js_scope.

Local Open Scope js_scope.

(** ** Service binding *)

(** The credentials object of the bound destination service instance
    ([services.dest]). *)
Record credentials : Type := {
  url : string;
  clientid : string;
  clientsecret : string;
  uri : string
}.

(** [a || b] on an environment variable: unset and empty are both falsy. *)
Definition or_default (v : option string) (d : string) : string :=
  match v with
  | None => d
  | Some "" => d
  | Some s => s
  end.

(** [s.replace(/\/$/, "")]: the pattern matches one slash standing at the
    very end of the string. *)
Fixpoint replace_trailing_slash (s : string) : string :=
  match s with
  | "" => ""
  | String c "" => if Ascii.eqb c "/" then "" else s
  | String c rest => String c (replace_trailing_slash rest)
  end.

(** [URLSearchParams.prototype.append] *)
Definition append (params : list (string * string)) (k v : string)
  : list (string * string) :=
  (params ++ [(k, v)])%list.

(** ** Allowed entity sets from Northwind *)

Definition ALLOWED_ENTITIES : list string :=
  [ "Categories";
    "CustomerDemographics";
    "Customers";
    "Employees";
    "Order_Details";
    "Orders";
    "Products";
    "Regions" ].

(** [Array.prototype.includes] on an array of strings. *)
Fixpoint includes (xs : list string) (x : string) : bool :=
  match xs with
  | [] => false
  | y :: rest => if String.eqb y x then true else includes rest x
  end.

(** ** The server *)

Section Server.

(** The upstream services: one step answers one outbound request. *)
Variable U : Type.
Variable upstream : U -> request -> outcome * U.

(** [const destService = services.dest] *)
Variable destService : credentials.

(** One axios call.  It is recorded in [calls]; a status outside
    200..299 is thrown with [err.response] set, a network failure is
    thrown without it. *)
Definition axios (req : request) : M U json :=
  fun w =>
    let (o, u') := upstream (up w) req in
    let w' := {| up := u';
                 calls := (calls w ++ [req])%list;
                 console := console w;
                 DESTINATION_NAME := DESTINATION_NAME w |} in
    match o with
    | Replied st data =>
        if validateStatus st then (Return data, w')
        else (Throw (AxiosError ("Request failed with status code " ++ decimal st)
                                (Some (st, data))), w')
    | NoReply m => (Throw (AxiosError m None), w')
    end.

Definition axios_post (target : string) (data : list (string * string))
                      (auth : string * string) : M U json :=
  axios {| req_method := POST; req_url := target; req_data := Some data;
           req_auth := Some auth; req_headers := [] |}.

Definition axios_get (target : string) (headers : list (string * string))
  : M U json :=
  axios {| req_method := GET; req_url := target; req_data := None;
           req_auth := None; req_headers := headers |}.

(** [v.name], for the property names the program reads
    ([access_token], [destinationConfiguration], [URL]): none of them is
    inherited from a prototype, so only a parsed object can have one. *)
Definition member (v : value) (name : string) : M U value :=
  match v with
  | None =>
      throw (TypeError ("Cannot read properties of undefined (reading '"
                        ++ name ++ "')"))
  | Some JNull =>
      throw (TypeError ("Cannot read properties of null (reading '"
                        ++ name ++ "')"))
  | Some (JObj fields) => ret (lookup name fields)
  | Some _ => ret undefined
  end.

(** [destConfig.URL.replace(/\/$/, "")] *)
Definition URL_replace (v : value) : M U string :=
  match v with
  | Some (JStr s) => ret (replace_trailing_slash s)
  | None =>
      throw (TypeError "Cannot read properties of undefined (reading 'replace')")
  | Some JNull =>
      throw (TypeError "Cannot read properties of null (reading 'replace')")
  | Some _ => throw (TypeError "destConfig.URL.replace is not a function")
  end.

Definition getenv_DESTINATION_NAME : M U (option string) :=
  fun w => (Return (DESTINATION_NAME w), w).

Definition console_error (args : list logarg) : M U unit :=
  fun w => (Return tt,
            {| up := up w; calls := calls w;
               console := (console w ++ [args])%list;
               DESTINATION_NAME := DESTINATION_NAME w |}).

(** *** Helper: get OAuth token for the destination service *)

Definition getDestinationToken : M U value :=
  let tokenUrl := url destService ++ "/oauth/token" in
  let params := append [] "grant_type" "client_credentials" in
  data <- axios_post tokenUrl params
            (clientid destService, clientsecret destService) ;;
  member (Some data) "access_token".

(** *** Helper: get destination configuration *)

Definition getDestinationConfig (accessToken : value) : M U value :=
  env <- getenv_DESTINATION_NAME ;;
  let destinationName := or_default env "Products" in
  let configUrl :=
    uri destService ++ "/destination-configuration/v1/destinations/"
      ++ destinationName in
  data <- axios_get configUrl
            [("Authorization", "Bearer " ++ template accessToken)] ;;
  member (Some data) "destinationConfiguration".

(** *** Helper: call Northwind OData for a given entity *)

Definition odataUrl (baseUrl entity : string) : string :=
  baseUrl ++ "/" ++ entity ++ "?$format=json".

Definition fetchODataEntity (entity : string) : M U json :=
  accessToken <- getDestinationToken ;;
  destConfig <- getDestinationConfig accessToken ;;
  URL <- member destConfig "URL" ;;
  baseUrl <- URL_replace URL ;;
  axios_get (odataUrl baseUrl entity) [].

(** *** Routes *)

Definition res_send (code : Z) (text : string) : M U response :=
  ret {| status := code; payload := Text text |}.

Definition res_json (data : json) : M U response :=
  ret {| status := 200; payload := Json data |}.

(** The [if (err.response)] block shared by the three catch clauses. *)
Definition log_remote (err : exn) : M U unit :=
  match err_response err with
  | Some (st, data) => console_error [LStr "Remote error:"; LNum st; LJson data]
  | None => ret tt
  end.

Definition rootRoute : M U response :=
  res_send 200
    "✅ Northwind Node app using Destination 'Products' is running. Call /products, /Customers or /odata/Products etc.".

Definition productsRoute : M U response :=
  try_catch
    (data <- fetchODataEntity "Products" ;;
     res_json data)
    (fun err =>
       console_error [LStr "Error in /products:"; LStr (message err)] ;;
       log_remote err ;;
       res_send 500 "Failed to fetch Products").

Definition odataRoute (entity : string) : M U response :=
  if negb (includes ALLOWED_ENTITIES entity) then
    res_send 400
      ("Entity '" ++ entity ++ "' is not allowed. Allowed: "
         ++ join ", " ALLOWED_ENTITIES)
  else
    try_catch
      (data <- fetchODataEntity entity ;;
       res_json data)
      (fun err =>
         console_error [LStr ("Error in /odata/" ++ entity ++ ":");
                        LStr (message err)] ;;
         log_remote err ;;
         res_send 500 ("Failed to fetch entity '" ++ entity ++ "'")).

Definition entityRoute (entity : string) : M U response :=
  try_catch
    (data <- fetchODataEntity entity ;;
     res_json data)
    (fun err =>
       console_error [LStr ("Error in /" ++ entity ++ ":");
                      LStr (message err)] ;;
       log_remote err ;;
       res_send 500 ("Failed to fetch " ++ entity)).

End Server.

Arguments axios {U} upstream req _.
Arguments axios_post {U} upstream target data auth _.
Arguments axios_get {U} upstream target headers _.
Arguments member {U} v name _.
Arguments URL_replace {U} v _.
Arguments getenv_DESTINATION_NAME {U} _.
Arguments console_error {U} args _.
Arguments getDestinationToken {U} upstream destService _.
Arguments getDestinationConfig {U} upstream destService accessToken _.
Arguments fetchODataEntity {U} upstream destService entity _.
Arguments res_send {U} code text _.
Arguments res_json {U} data _.
Arguments log_remote {U} err _.
Arguments rootRoute {U} _.
Arguments productsRoute {U} upstream destService _.
Arguments odataRoute {U} upstream destService entity _.
Arguments entityRoute {U} upstream destService entity _.

(** ** Route registration *)

(** The routes in the order the program registers them: the three
    [app.get] calls, then one shortcut per allowed entity
    ([ALLOWED_ENTITIES.forEach]). *)
Inductive route : Type :=
| Root
| ProductsLower
| OdataParam
| Shortcut (entity : string).

Definition path (r : route) : string :=
  match r with
  | Root => "/"
  | ProductsLower => "/products"
  | OdataParam => "/odata/:entity"
  | Shortcut entity => "/" ++ entity
  end.

Definition app_routes : list route :=
  ([Root; ProductsLower; OdataParam] ++ map Shortcut ALLOWED_ENTITIES)%list.

(** The handler registered for a route; [param] is [req.params.entity]. *)
Definition handler {U} (upstream : U -> request -> outcome * U)
    (destService : credentials) (r : route) (param : string) : M U response :=
  match r with
  | Root => rootRoute
  | ProductsLower => productsRoute upstream destService
  | OdataParam => odataRoute upstream destService param
  | Shortcut entity => entityRoute upstream destService entity
  end.

(** ** Startup *)

(** [process.env.PORT || 5000]: the variable's text, or the number. *)
Definition PORT (env_PORT : option string) : string + Z :=
  match env_PORT with
  | None => inr 5000
  | Some "" => inr 5000
  | Some s => inl s
  end.

Definition port_text (p : string + Z) : string :=
  match p with
  | inl s => s
  | inr n => decimal n
  end.

(** What becomes of [app.listen(PORT, ...)]: the port is bound, or the
    call fails (a port out of range, a port in use, ...) with the report
    Node writes for the uncaught error. *)
Inductive listen_outcome : Type :=
| Bound
| Refused (report : string).

(** The process while the top-level code of the module runs. *)
Record process : Type := {
  exit_code : option Z;
  stderr : list (list logarg);
  stdout : list (list logarg);
  registered : list route;
  listening : option (string + Z);
  services_dest : option credentials
}.

(** The process before the first statement. *)
Definition boot : process :=
  {| exit_code := None; stderr := []; stdout := []; registered := [];
     listening := None; services_dest := None |}.

(** Top-level statements run one after the other for as long as the
    process lives: a statement that ends the process yields nothing and
    the statements after it do not run. *)
Definition top (A : Type) : Type := process -> option A * process.

Definition top_ret {A} (a : A) : top A := fun p => (Some a, p).

Definition top_bind {A B} (m : top A) (k : A -> top B) : top B :=
  fun p =>
    match m p with
    | (Some a, p') => k a p'
    | (None, p') => (None, p')
    end.

Declare Scope top_scope.
Delimit Scope top_scope with top.
Notation "x <- m ;; k" := (top_bind m (fun x => k))
  (at level 100, m at next level, right associativity) : top_scope.
Notation "m ;; k" := (top_bind m (fun _ => k))
  (at level 100, right associativity) : top_scope.

(** [console.error] at top level *)
Definition top_console_error (args : list logarg) : top unit :=
  fun p =>
    (Some tt,
     {| exit_code := exit_code p; stderr := (stderr p ++ [args])%list;
        stdout := stdout p; registered := registered p;
        listening := listening p; services_dest := services_dest p |}).

(** [process.exit(code)] *)
Definition process_exit {A} (code : Z) : top A :=
  fun p =>
    (None,
     {| exit_code := Some code; stderr := stderr p; stdout := stdout p;
        registered := registered p; listening := listening p;
        services_dest := services_dest p |}).

(** The [try]/[catch] around [xsenv.getServices]: [bound] is what it
    finds for the tag "destination", the credentials of the bound
    instance, or nothing (it throws). *)
Definition getServices (bound : option credentials) : top credentials :=
  match bound with
  | Some dest => top_ret dest
  | None =>
      (top_console_error
         [LStr "❌ Destination service not found. Make sure a destination instance (e.g. 'destination-lite') is bound to this app."] ;;
       process_exit 1)%top
  end.

(** [const destService = services.dest] *)
Definition set_destService (dest : credentials) : top unit :=
  fun p =>
    (Some tt,
     {| exit_code := exit_code p; stderr := stderr p; stdout := stdout p;
        registered := registered p; listening := listening p;
        services_dest := Some dest |}).

(** [app.get(path, handler)] *)
Definition app_get (r : route) : top unit :=
  fun p =>
    (Some tt,
     {| exit_code := exit_code p; stderr := stderr p; stdout := stdout p;
        registered := (registered p ++ [r])%list; listening := listening p;
        services_dest := services_dest p |}).

(** [Array.prototype.forEach] over top-level statements *)
Fixpoint forEach {A} (xs : list A) (f : A -> top unit) : top unit :=
  match xs with
  | [] => top_ret tt
  | x :: rest => (f x ;; forEach rest f)%top
  end.

(** [app.listen(PORT, () => console.log(...))]: when the port is bound
    the callback writes its line; when the call fails the error is not
    caught anywhere, Node reports it and the process ends with code 1. *)
Definition app_listen (listen : string + Z -> listen_outcome)
    (port : string + Z) : top unit :=
  fun p =>
    match listen port with
    | Bound =>
        (Some tt,
         {| exit_code := exit_code p; stderr := stderr p;
            stdout := (stdout p
                         ++ [[LStr ("🚀 Server running on port "
                                    ++ port_text port)]])%list;
            registered := registered p; listening := Some port;
            services_dest := services_dest p |})
    | Refused report =>
        (None,
         {| exit_code := Some 1;
            stderr := (stderr p ++ [[LStr report]])%list;
            stdout := stdout p; registered := registered p;
            listening := None; services_dest := services_dest p |})
    end.

(** The top-level code of [server.js], in its order. *)
Definition main (bound : option credentials) (env_PORT : option string)
    (listen : string + Z -> listen_outcome) : top unit :=
  (let port := PORT env_PORT in
   services_dest <- getServices bound ;;
   set_destService services_dest ;;
   app_get Root ;;
   app_get ProductsLower ;;
   app_get OdataParam ;;
   forEach ALLOWED_ENTITIES (fun entity => app_get (Shortcut entity)) ;;
   app_listen listen port)%top.

(** The process once the top-level code has run. *)
Definition startup (bound : option credentials) (env_PORT : option string)
    (listen : string + Z -> listen_outcome) : process :=
  snd (main bound env_PORT listen boot).

Definition route_eqb (a b : route) : bool :=
  match a, b with
  | Root, Root => true
  | ProductsLower, ProductsLower => true
  | OdataParam, OdataParam => true
  | Shortcut x, Shortcut y => String.eqb x y
  | _, _ => false
  end.

(** A request reaches a handler only through a live, listening process
    and a route it has registered. *)
Definition serve {U} (upstream : U -> request -> outcome * U) (p : process)
    (r : route) (param : string) (w : world U)
  : option (result response * world U) :=
  match exit_code p, listening p, services_dest p with
  | None, Some _, Some destService =>
      if existsb (route_eqb r) (registered p)
      then Some (handler upstream destService r param w)
      else None
  | _, _, _ => None
  end.

(** ** Vocabulary of the statements *)

(** [s] contains [sub]. *)
Definition contains (s sub : string) : Prop :=
  exists pre post, s = pre ++ sub ++ post.

Fixpoint ends_with_slash (s : string) : bool :=
  match s with
  | "" => false
  | String c "" => Ascii.eqb c "/"
  | String _ rest => ends_with_slash rest
  end.

(** The base URL a destination configuration provides, if it has one. *)
Definition config_URL (destConfig : value) : option string :=
  match destConfig with
  | Some (JObj fields) =>
      match lookup "URL" fields with
      | Some (JStr s) => Some s
      | _ => None
      end
  | _ => None
  end.

(** The three outbound requests. *)
Definition tokenRequest (destService : credentials) : request :=
  {| req_method := POST;
     req_url := url destService ++ "/oauth/token";
     req_data := Some [("grant_type", "client_credentials")];
     req_auth := Some (clientid destService, clientsecret destService);
     req_headers := [] |}.

Definition configRequest (destService : credentials) (name : string)
    (accessToken : value) : request :=
  {| req_method := GET;
     req_url := uri destService
                  ++ "/destination-configuration/v1/destinations/" ++ name;
     req_data := None;
     req_auth := None;
     req_headers := [("Authorization", "Bearer " ++ template accessToken)] |}.

Definition dataRequest (target : string) : request :=
  {| req_method := GET; req_url := target; req_data := None;
     req_auth := None; req_headers := [] |}.

(** The entity a route fetches, if it fetches at all. *)
Definition target_entity (r : route) (param : string) : option string :=
  match r with
  | Root => None
  | ProductsLower => Some "Products"
  | OdataParam => if includes ALLOWED_ENTITIES param then Some param else None
  | Shortcut entity => Some entity
  end.

(** The text a data route sends with status 500. *)
Definition failure_text (r : route) (param : string) : string :=
  match r with
  | Root => ""
  | ProductsLower => "Failed to fetch Products"
  | OdataParam => "Failed to fetch entity '" ++ param ++ "'"
  | Shortcut entity => "Failed to fetch " ++ entity
  end.

(** The first argument of its [console.error] line. *)
Definition error_prefix (r : route) (param : string) : string :=
  match r with
  | Root => ""
  | ProductsLower => "Error in /products:"
  | OdataParam => "Error in /odata/" ++ param ++ ":"
  | Shortcut entity => "Error in /" ++ entity ++ ":"
  end.

(** The world after one outbound request has been answered. *)
Definition sent {U} (req : request) (u' : U) (w : world U) : world U :=
  {| up := u';
     calls := (calls w ++ [req])%list;
     console := console w;
     DESTINATION_NAME := DESTINATION_NAME w |}.

(** The world after a catch clause has written its lines. *)
Definition logged {U} (prefix : string) (err : exn) (w : world U) : world U :=
  {| up := up w;
     calls := calls w;
     console :=
       (console w ++ [[LStr prefix; LStr (message err)]]
          ++ match err_response err with
             | Some (st, data) => [[LStr "Remote error:"; LNum st; LJson data]]
             | None => []
             end)%list;
     DESTINATION_NAME := DESTINATION_NAME w |}.

Definition set_DESTINATION_NAME {U} (v : option string) (w : world U)
  : world U :=
  {| up := up w; calls := calls w; console := console w;
     DESTINATION_NAME := v |}.

(** [e] replayed after the history of [h]: the calls and console lines
    of [h] come first, the upstream state and the environment are those
    of [e]. *)
Definition prepend {U} (h e : world U) : world U :=
  {| up := up e;
     calls := (calls h ++ calls e)%list;
     console := (console h ++ console e)%list;
     DESTINATION_NAME := DESTINATION_NAME e |}.

(** The same world with its history forgotten. *)
Definition fresh {U} (w : world U) : world U :=
  {| up := up w; calls := []; console := [];
     DESTINATION_NAME := DESTINATION_NAME w |}.

(** A computation that only appends to the history and never reads it. *)
Definition framed {U A} (m : M U A) : Prop :=
  forall h w, m (prepend h w) = (fst (m w), prepend h (snd (m w))).

(** ** Sample deployments *)

Module Sample.

Definition creds : credentials :=
  {| url := "https://auth.example";
     clientid := "cid";
     clientsecret := "s3cret";
     uri := "https://dest.example" |}.

Definition northwind_svc : string :=
  "https://services.odata.org/northwind/northwind.svc/".

Definition token_body : json :=
  JObj [("access_token", JStr "t0k3n"); ("token_type", JStr "bearer");
        ("expires_in", JNum "43199")].

Definition config_body (name target : string) : json :=
  JObj [("owner", JObj [("SubaccountId", JStr "sub"); ("InstanceId", JNull)]);
        ("destinationConfiguration",
          JObj [("Name", JStr name); ("Type", JStr "HTTP");
                ("URL", JStr target); ("Authentication", JStr "NoAuthentication")])].

Definition products_body : json :=
  JObj [("value", JArr [JObj [("ProductID", JNum "1"); ("ProductName", JStr "Chai")]])].

(** A stateless upstream put together from the answers of its three
    services; the destination service knows "Products" and "Backup". *)
Definition upstream_of (token : outcome) (config : string -> outcome)
    (data : string -> outcome) (_ : unit) (req : request) : outcome * unit :=
  if String.eqb (req_url req) "https://auth.example/oauth/token" then (token, tt)
  else if String.prefix "https://dest.example/" (req_url req)
       then (config (req_url req), tt)
       else (data (req_url req), tt).

Definition config_service (target : string) (configUrl : string) : outcome :=
  if String.eqb configUrl
       "https://dest.example/destination-configuration/v1/destinations/Products"
  then Replied 200 (config_body "Products" target)
  else if String.eqb configUrl
            "https://dest.example/destination-configuration/v1/destinations/Backup"
       then Replied 200 (config_body "Backup" "https://backup.example/svc")
       else Replied 404 (JObj [("ErrorMessage", JStr "Configuration not found")]).

Definition data_service (target : string) : outcome :=
  if String.eqb target
       "https://services.odata.org/northwind/northwind.svc/Products?$format=json"
  then Replied 200 products_body
  else Replied 404 (JStr "Resource not found").

(** Everything works. *)
Definition healthy : unit -> request -> outcome * unit :=
  upstream_of (Replied 200 token_body) (config_service northwind_svc)
              data_service.

(** The token endpoint rejects the client. *)
Definition token_down : unit -> request -> outcome * unit :=
  upstream_of (Replied 401 (JObj [("error", JStr "unauthorized")]))
              (config_service northwind_svc) data_service.

(** The token endpoint answers 200 with a page that is not JSON. *)
Definition token_garbled : unit -> request -> outcome * unit :=
  upstream_of (Replied 200 (JStr "<html>maintenance</html>"))
              (fun _ => Replied 401 (JStr "Unauthorized")) data_service.

(** The destination has no URL property. *)
Definition no_URL : unit -> request -> outcome * unit :=
  upstream_of (Replied 200 token_body)
              (fun _ => Replied 200
                 (JObj [("destinationConfiguration",
                         JObj [("Name", JStr "Products")])]))
              data_service.

(** The destination's URL ends in two slashes. *)
Definition two_slashes : unit -> request -> outcome * unit :=
  upstream_of (Replied 200 token_body)
              (config_service "https://services.odata.org/northwind/northwind.svc//")
              data_service.

Definition w0 : world unit :=
  {| up := tt; calls := []; console := []; DESTINATION_NAME := None |}.

(** Every port can be bound. *)
Definition any_port (_ : string + Z) : listen_outcome := Bound.


(** A world in which one request has already been served and failed. *)
Definition w_busy : world unit :=
  {| up := tt;
     calls := [{| req_method := POST;
                  req_url := "https://auth.example/oauth/token";
                  req_data := Some [("grant_type", "client_credentials")];
                  req_auth := Some ("cid", "s3cret");
                  req_headers := [] |}];
     console := [[LStr "Error in /Orders:"; LStr "socket hang up"]];
     DESTINATION_NAME := None |}.

End Sample.

(** * Properties *)

(** ** Strings *)

Lemma replace_trailing_slash_app (s : string) :
  replace_trailing_slash (s ++ "/") = s.
Proof.
  induction s as [|c s IH]; [reflexivity|].
  change (String c s ++ "/") with (String c (s ++ "/")).
  destruct s as [|d s]; [reflexivity|].
  change (String d s ++ "/") with (String d (s ++ "/")) in *.
  cbn [replace_trailing_slash] in *. now rewrite IH.
Qed.

Lemma replace_trailing_slash_keep (s : string) :
  ends_with_slash s = false -> replace_trailing_slash s = s.
Proof.
  induction s as [|c s IH]; [reflexivity|].
  destruct s as [|d s].
  - cbn. now intros ->.
  - intros H. cbn [replace_trailing_slash]. f_equal. now apply IH.
Qed.

Lemma includes_In (xs : list string) (x : string) :
  includes xs x = true <-> In x xs.
Proof.
  induction xs as [|y xs IH]; cbn.
  - split; [discriminate | tauto].
  - destruct (String.eqb_spec y x) as [->|Hne].
    + split; auto.
    + rewrite IH. split; [auto | intros [H|H]; [contradiction | exact H]].
Qed.

Lemma includes_not_In (xs : list string) (x : string) :
  ~ In x xs -> includes xs x = false.
Proof.
  intros H. destruct (includes xs x) eqn:E; [|reflexivity].
  apply includes_In in E. contradiction.
Qed.

Lemma string_app_assoc (a b c : string) : (a ++ b) ++ c = a ++ b ++ c.
Proof. induction a as [|x a IH]; cbn; [reflexivity | now rewrite IH]. Qed.

Lemma contains_suffix (pre sub s : string) :
  contains s sub -> contains (pre ++ s) sub.
Proof.
  intros (a & b & ->). exists (pre ++ a), b. now rewrite string_app_assoc.
Qed.

(** ** The monad *)

Section MonadFacts.

Context {U A B : Type}.

Lemma bind_Return (m : M U A) (k : A -> M U B) w a w' :
  m w = (Return a, w') -> bind m k w = k a w'.
Proof. unfold bind. now intros ->. Qed.

Lemma bind_Throw (m : M U A) (k : A -> M U B) w err w' :
  m w = (Throw err, w') -> bind m k w = (Throw err, w').
Proof. unfold bind. now intros ->. Qed.

Lemma try_catch_Return (m : M U A) (h : exn -> M U A) w a w' :
  m w = (Return a, w') -> try_catch m h w = (Return a, w').
Proof. unfold try_catch. now intros ->. Qed.

Lemma try_catch_Throw (m : M U A) (h : exn -> M U A) w err w' :
  m w = (Throw err, w') -> try_catch m h w = h err w'.
Proof. unfold try_catch. now intros ->. Qed.

End MonadFacts.

(** ** The helpers and the routes *)

Section ServerFacts.

Variable U : Type.
Variable upstream : U -> request -> outcome * U.
Variable destService : credentials.

Implicit Types (w : world U) (req : request) (err : exn).

(** *** axios *)

Lemma axios_answered req w st data u' :
  upstream (up w) req = (Replied st data, u') ->
  validateStatus st = true ->
  axios upstream req w = (Return data, sent req u' w).
Proof. unfold axios. now intros -> ->. Qed.

Lemma axios_rejected req w st data u' :
  upstream (up w) req = (Replied st data, u') ->
  validateStatus st = false ->
  axios upstream req w =
    (Throw (AxiosError ("Request failed with status code " ++ decimal st)
                       (Some (st, data))),
     sent req u' w).
Proof. unfold axios. now intros -> ->. Qed.

Lemma axios_unanswered req w m u' :
  upstream (up w) req = (NoReply m, u') ->
  axios upstream req w = (Throw (AxiosError m None), sent req u' w).
Proof. unfold axios. now intros ->. Qed.

(** Whatever the answer, the call is made once and recorded. *)
Lemma axios_sent req w :
  exists r, axios upstream req w = (r, sent req (snd (upstream (up w) req)) w).
Proof.
  unfold axios. destruct (upstream (up w) req) as [[st data|m] u']; cbn.
  - destruct (validateStatus st); eauto.
  - eauto.
Qed.

(** *** The three helpers as chains of calls *)

Lemma getDestinationToken_eq w :
  getDestinationToken upstream destService w =
    bind (axios upstream (tokenRequest destService))
         (fun data => member (Some data) "access_token") w.
Proof. reflexivity. Qed.

Lemma getDestinationConfig_eq accessToken w :
  getDestinationConfig upstream destService accessToken w =
    bind (axios upstream
            (configRequest destService
               (or_default (DESTINATION_NAME w) "Products") accessToken))
         (fun data => member (Some data) "destinationConfiguration") w.
Proof. reflexivity. Qed.

Lemma fetch_token_Throw entity w err w1 :
  getDestinationToken upstream destService w = (Throw err, w1) ->
  fetchODataEntity upstream destService entity w = (Throw err, w1).
Proof. intros H. unfold fetchODataEntity. now apply bind_Throw. Qed.

Lemma fetch_config_Throw entity w tok w1 err w2 :
  getDestinationToken upstream destService w = (Return tok, w1) ->
  getDestinationConfig upstream destService tok w1 = (Throw err, w2) ->
  fetchODataEntity upstream destService entity w = (Throw err, w2).
Proof.
  intros Ht Hc. unfold fetchODataEntity.
  rewrite (bind_Return _ _ _ _ _ Ht). now apply bind_Throw.
Qed.

(** With a base URL in hand the chain ends in the data call. *)
Lemma fetch_data_call entity w tok w1 destConfig w2 base :
  getDestinationToken upstream destService w = (Return tok, w1) ->
  getDestinationConfig upstream destService tok w1 = (Return destConfig, w2) ->
  config_URL destConfig = Some base ->
  fetchODataEntity upstream destService entity w =
    axios upstream
      (dataRequest (odataUrl (replace_trailing_slash base) entity)) w2.
Proof.
  intros Ht Hc Hu. unfold fetchODataEntity.
  rewrite (bind_Return _ _ _ _ _ Ht), (bind_Return _ _ _ _ _ Hc).
  destruct destConfig as [[| | | | |fields]|]; try discriminate.
  cbn in Hu. unfold bind, member, ret.
  destruct (lookup "URL" fields) as [[| | |s| |]|]; try discriminate.
  injection Hu as ->. reflexivity.
Qed.

(** Without one, reading it throws and no data call is made. *)
Lemma fetch_no_URL entity w tok w1 destConfig w2 :
  getDestinationToken upstream destService w = (Return tok, w1) ->
  getDestinationConfig upstream destService tok w1 = (Return destConfig, w2) ->
  config_URL destConfig = None ->
  exists m,
    fetchODataEntity upstream destService entity w = (Throw (TypeError m), w2).
Proof.
  intros Ht Hc Hu. unfold fetchODataEntity.
  rewrite (bind_Return _ _ _ _ _ Ht), (bind_Return _ _ _ _ _ Hc).
  unfold bind, member, ret, throw.
  destruct destConfig as [[| | | | |fields]|]; cbn; eauto.
  cbn in Hu.
  destruct (lookup "URL" fields) as [[| | |s| |]|]; cbn;
    try discriminate; eauto.
Qed.

(** *** The catch clauses *)

Lemma catch_clause prefix text err w :
  bind (console_error [LStr prefix; LStr (message err)])
       (fun _ => bind (log_remote err) (fun _ => res_send 500 text)) w
  = (Return {| status := 500; payload := Text text |}, logged prefix err w).
Proof.
  unfold bind, console_error, log_remote, res_send, ret, logged.
  destruct (err_response err) as [[st data]|]; cbn.
  - now rewrite <- app_assoc.
  - reflexivity.
Qed.

Lemma productsRoute_Return w data w' :
  fetchODataEntity upstream destService "Products" w = (Return data, w') ->
  productsRoute upstream destService w
  = (Return {| status := 200; payload := Json data |}, w').
Proof.
  intros H. unfold productsRoute. apply try_catch_Return.
  now rewrite (bind_Return _ _ _ _ _ H).
Qed.

Lemma productsRoute_Throw w err w' :
  fetchODataEntity upstream destService "Products" w = (Throw err, w') ->
  productsRoute upstream destService w
  = (Return {| status := 500; payload := Text "Failed to fetch Products" |},
     logged "Error in /products:" err w').
Proof.
  intros H. unfold productsRoute.
  rewrite (try_catch_Throw _ _ w err w'); [apply catch_clause|].
  now apply bind_Throw.
Qed.

Lemma entityRoute_Return entity w data w' :
  fetchODataEntity upstream destService entity w = (Return data, w') ->
  entityRoute upstream destService entity w
  = (Return {| status := 200; payload := Json data |}, w').
Proof.
  intros H. unfold entityRoute. apply try_catch_Return.
  now rewrite (bind_Return _ _ _ _ _ H).
Qed.

Lemma entityRoute_Throw entity w err w' :
  fetchODataEntity upstream destService entity w = (Throw err, w') ->
  entityRoute upstream destService entity w
  = (Return {| status := 500; payload := Text ("Failed to fetch " ++ entity) |},
     logged ("Error in /" ++ entity ++ ":") err w').
Proof.
  intros H. unfold entityRoute.
  rewrite (try_catch_Throw _ _ w err w'); [apply catch_clause|].
  now apply bind_Throw.
Qed.

Lemma odataRoute_Return entity w data w' :
  In entity ALLOWED_ENTITIES ->
  fetchODataEntity upstream destService entity w = (Return data, w') ->
  odataRoute upstream destService entity w
  = (Return {| status := 200; payload := Json data |}, w').
Proof.
  intros Hin H. unfold odataRoute.
  apply includes_In in Hin. rewrite Hin. cbn [negb].
  apply try_catch_Return. now rewrite (bind_Return _ _ _ _ _ H).
Qed.

Lemma odataRoute_Throw entity w err w' :
  In entity ALLOWED_ENTITIES ->
  fetchODataEntity upstream destService entity w = (Throw err, w') ->
  odataRoute upstream destService entity w
  = (Return {| status := 500;
               payload := Text ("Failed to fetch entity '" ++ entity ++ "'") |},
     logged ("Error in /odata/" ++ entity ++ ":") err w').
Proof.
  intros Hin H. unfold odataRoute.
  apply includes_In in Hin. rewrite Hin. cbn [negb].
  rewrite (try_catch_Throw _ _ w err w'); [apply catch_clause|].
  now apply bind_Throw.
Qed.


End ServerFacts.

(** ** What a request leaves behind *)

Section Traces.

Variable U : Type.
Variable upstream : U -> request -> outcome * U.
Variable destService : credentials.

Implicit Types (w : world U).

Lemma member_pure (v : value) (name : string) w :
  snd (member v name w) = w.
Proof. unfold member. now destruct v as [[]|]. Qed.

Lemma getDestinationToken_sent w :
  snd (getDestinationToken upstream destService w)
  = sent (tokenRequest destService)
         (snd (upstream (up w) (tokenRequest destService))) w.
Proof.
  rewrite getDestinationToken_eq. unfold bind.
  destruct (axios_sent U upstream (tokenRequest destService) w) as [r ->].
  destruct r as [data|err]; [apply member_pure | reflexivity].
Qed.

Lemma getDestinationConfig_sent accessToken w :
  let req := configRequest destService
               (or_default (DESTINATION_NAME w) "Products") accessToken in
  snd (getDestinationConfig upstream destService accessToken w)
  = sent req (snd (upstream (up w) req)) w.
Proof.
  intros req. rewrite getDestinationConfig_eq. fold req. unfold bind.
  destruct (axios_sent U upstream req w) as [r ->].
  destruct r as [data|err]; [apply member_pure | reflexivity].
Qed.

(** The chain makes its calls in order and stops at the first failure:
    the token request, then the lookup under the name the variable has
    at that moment, then the data request. *)
Lemma fetch_calls entity w :
  let w' := snd (fetchODataEntity upstream destService entity w) in
  DESTINATION_NAME w' = DESTINATION_NAME w /\
  console w' = console w /\
  exists rest,
    calls w' = (calls w ++ tokenRequest destService :: rest)%list /\
    (rest = [] \/
     exists tok,
       let lookup_req :=
         configRequest destService
           (or_default (DESTINATION_NAME w) "Products") tok in
       rest = [lookup_req] \/
       exists base,
         rest = [lookup_req;
                 dataRequest (odataUrl (replace_trailing_slash base) entity)]).
Proof.
  cbv zeta.
  pose proof (getDestinationToken_sent w) as Ht.
  destruct (getDestinationToken upstream destService w) as [[tok|err] w1] eqn:Et;
    cbn [snd] in Ht; subst w1.
  2:{ rewrite (fetch_token_Throw _ _ _ _ _ _ _ Et). cbn.
      repeat split. exists []. auto. }
  set (w1 := sent _ _ w) in *.
  pose proof (getDestinationConfig_sent tok w1) as Hc. cbv zeta in Hc.
  destruct (getDestinationConfig upstream destService tok w1)
    as [[cfg|err] w2] eqn:Ec; cbn [snd] in Hc; subst w2.
  2:{ rewrite (fetch_config_Throw _ _ _ _ _ _ _ _ _ Et Ec). cbn.
      repeat split. eexists. split; [now rewrite <- app_assoc|].
      right. exists tok. left. reflexivity. }
  set (w2 := sent _ _ w1) in *.
  destruct (config_URL cfg) as [base|] eqn:Eu.
  - rewrite (fetch_data_call _ _ _ _ _ _ _ _ _ _ Et Ec Eu).
    destruct (axios_sent U upstream
                (dataRequest (odataUrl (replace_trailing_slash base) entity)) w2)
      as [r ->].
    cbn. repeat split. eexists. split; [now rewrite <- !app_assoc|].
    right. exists tok. right. exists base. reflexivity.
  - destruct (fetch_no_URL _ _ _ entity _ _ _ _ _ Et Ec Eu) as [m ->].
    cbn. repeat split. eexists. split; [now rewrite <- app_assoc|].
    right. exists tok. left. reflexivity.
Qed.

End Traces.

(** ** Startup *)

(** With the binding present the top-level code runs to [app.listen],
    and the process is what that call makes of it. *)
Lemma startup_bound (dest : credentials) (env_PORT : option string)
    (listen : string + Z -> listen_outcome) :
  startup (Some dest) env_PORT listen
  = match listen (PORT env_PORT) with
    | Bound =>
        {| exit_code := None;
           stderr := [];
           stdout := [[LStr ("🚀 Server running on port "
                              ++ port_text (PORT env_PORT))]];
           registered := app_routes;
           listening := Some (PORT env_PORT);
           services_dest := Some dest |}
    | Refused report =>
        {| exit_code := Some 1;
           stderr := [[LStr report]];
           stdout := [];
           registered := app_routes;
           listening := None;
           services_dest := Some dest |}
    end.
Proof.
  unfold startup, main, top_bind, getServices, top_ret.
  cbn -[PORT]. unfold app_listen.
  now destruct (listen (PORT env_PORT)).
Qed.



(** * The specification's claims *)

(** Splits a closed string around an occurrence of [sub]. *)
Ltac split_around sub :=
  match goal with
  | |- contains ?s sub =>
      match eval vm_compute in (String.index 0 sub s) with
      | Some ?n =>
          exists (String.substring 0 n s),
                 (String.substring (n + String.length sub) (String.length s) s);
          vm_compute; reflexivity
      end
  end.

Section Claims.

Variable U : Type.
Variable upstream : U -> request -> outcome * U.
Variable destService : credentials.

Implicit Types (w : world U) (entity name : string).

(** C9. [GET /] answers 200 with one fixed text, whatever the world,
    and leaves the world as it found it: the upstream state is
    untouched and no outbound call (token, lookup or data) is added. *)
Theorem root_is_static w :
  rootRoute w =
    (Return {| status := 200;
               payload := Text "✅ Northwind Node app using Destination 'Products' is running. Call /products, /Customers or /odata/Products etc." |},
     w)
  /\ calls (snd (rootRoute w)) = calls w
  /\ up (snd (rootRoute w)) = up w.
Proof. repeat split. Qed.

(** C3. For every [entity] that is not, character for character, one
    of the eight allowed names, [GET /odata/{entity}] answers 400 with
    a text that contains the allow-list (the joined list, hence every
    allowed name), for every upstream and every world, and the world is
    unchanged: the fetch chain is not run. *)
Theorem odata_rejects_unlisted entity w :
  ~ In entity ALLOWED_ENTITIES ->
  let text :=
    "Entity '" ++ entity
      ++ "' is not allowed. Allowed: Categories, CustomerDemographics, Customers, Employees, Order_Details, Orders, Products, Regions" in
  odataRoute upstream destService entity w
  = (Return {| status := 400; payload := Text text |}, w)
  /\ contains text (join ", " ALLOWED_ENTITIES)
  /\ Forall (contains text) ALLOWED_ENTITIES.
Proof.
  intros Hout text. split; [|split].
  - unfold odataRoute. now rewrite (includes_not_In _ _ Hout).
  - do 2 apply contains_suffix. split_around (join ", " ALLOWED_ENTITIES).
  - unfold ALLOWED_ENTITIES.
    repeat (apply Forall_cons;
            [do 2 apply contains_suffix;
             match goal with |- contains _ ?n => split_around n end|]).
    apply Forall_nil.
Qed.

(** C2 (amended). The fetcher removes one trailing slash, not all of
    them.  For a base [b] that does not end in a slash, the resolved
    URLs [b] and [b ++ "/"] are both stripped to [b] and both compose
    to [b ++ "/" ++ entity ++ "?$format=json"], where the character
    before ["/" ++ entity] is the last of [b] and so not a slash; and
    once the destination is resolved to such a URL, that composed URL
    is the one the chain requests. *)
Theorem trailing_slash_stripped_once b entity base :
  ends_with_slash b = false ->
  base = b \/ base = b ++ "/" ->
  replace_trailing_slash base = b
  /\ odataUrl (replace_trailing_slash base) entity
     = b ++ "/" ++ entity ++ "?$format=json"
  /\ forall w tok w1 destConfig w2,
       getDestinationToken upstream destService w = (Return tok, w1) ->
       getDestinationConfig upstream destService tok w1
         = (Return destConfig, w2) ->
       config_URL destConfig = Some base ->
       fetchODataEntity upstream destService entity w
       = axios upstream
           (dataRequest (b ++ "/" ++ entity ++ "?$format=json")) w2.
Proof.
  intros Hb Hbase.
  assert (Hs : replace_trailing_slash base = b).
  { destruct Hbase as [->| ->].
    - now apply replace_trailing_slash_keep.
    - apply replace_trailing_slash_app. }
  split; [exact Hs|]. split.
  - now rewrite Hs.
  - intros w tok w1 destConfig w2 Ht Hc Hu.
    rewrite (fetch_data_call _ _ _ _ _ _ _ _ _ _ Ht Hc Hu), Hs.
    reflexivity.
Qed.

(** C1 (amended). For every allowed [name] the shortcut route is
    registered, and [GET /odata/{name}] and [GET /{name}] both run
    [fetchODataEntity name]: on success both answer 200 with the same
    JSON and leave the same world; on failure both answer 500, the
    generic route with the text [Failed to fetch entity '{name}'] and
    the shortcut with [Failed to fetch {name}], after the same
    outbound calls. *)
Theorem odata_and_shortcut_agree name w :
  In name ALLOWED_ENTITIES ->
  In (Shortcut name) app_routes
  /\ match fetchODataEntity upstream destService name w with
     | (Return data, w') =>
         odataRoute upstream destService name w
         = (Return {| status := 200; payload := Json data |}, w')
         /\ entityRoute upstream destService name w
            = (Return {| status := 200; payload := Json data |}, w')
     | (Throw err, w') =>
         odataRoute upstream destService name w
         = (Return {| status := 500;
                      payload := Text ("Failed to fetch entity '" ++ name ++ "'") |},
            logged ("Error in /odata/" ++ name ++ ":") err w')
         /\ entityRoute upstream destService name w
            = (Return {| status := 500;
                         payload := Text ("Failed to fetch " ++ name) |},
               logged ("Error in /" ++ name ++ ":") err w')
     end.
Proof.
  intros Hin. split.
  - unfold app_routes. apply in_or_app. right. now apply in_map.
  - destruct (fetchODataEntity upstream destService name w)
      as [[data|err] w'] eqn:E.
    + split; [now apply odataRoute_Return | now apply entityRoute_Return].
    + split; [now apply odataRoute_Throw | now apply entityRoute_Throw].
Qed.

(** C4. With credentials the token endpoint accepts and a destination
    resolved to [https://services.odata.org/northwind/northwind.svc/],
    [GET /Products] makes, after the token request and the lookup, one
    data request: a GET of
    [https://services.odata.org/northwind/northwind.svc/Products?$format=json]
    with no [auth] and no header; when that is answered with a 2xx
    status, the body of the answer is the JSON sent back with status
    200.  Express matches paths without regard to case, so the request
    can be taken by the [/products] route registered first; both
    handlers are covered. *)
Theorem get_Products_scenario w tok w1 destConfig w2 st data u3 :
  let data_req :=
    {| req_method := GET;
       req_url := "https://services.odata.org/northwind/northwind.svc/Products?$format=json";
       req_data := None;
       req_auth := None;
       req_headers := [] |} in
  getDestinationToken upstream destService w = (Return tok, w1) ->
  getDestinationConfig upstream destService tok w1 = (Return destConfig, w2) ->
  config_URL destConfig
    = Some "https://services.odata.org/northwind/northwind.svc/" ->
  upstream (up w2) data_req = (Replied st data, u3) ->
  validateStatus st = true ->
  exists w3,
    entityRoute upstream destService "Products" w
    = (Return {| status := 200; payload := Json data |}, w3)
    /\ productsRoute upstream destService w
       = (Return {| status := 200; payload := Json data |}, w3)
    /\ calls w3
       = (calls w
            ++ [tokenRequest destService;
                configRequest destService
                  (or_default (DESTINATION_NAME w) "Products") tok;
                data_req])%list.
Proof.
  intros data_req Ht Hc Hu Hd Hst.
  assert (Hf : fetchODataEntity upstream destService "Products" w
               = (Return data, sent data_req u3 w2)).
  { rewrite (fetch_data_call _ _ _ _ _ _ _ _ _ _ Ht Hc Hu).
    exact (axios_answered _ upstream data_req w2 st data u3 Hd Hst). }
  exists (sent data_req u3 w2). split; [|split].
  - now apply entityRoute_Return.
  - now apply productsRoute_Return.
  - pose proof (getDestinationToken_sent _ upstream destService w) as H1.
    rewrite Ht in H1. cbn [snd] in H1.
    pose proof (getDestinationConfig_sent _ upstream destService tok w1) as H2.
    cbv zeta in H2. rewrite Hc in H2. cbn [snd] in H2.
    subst w2 w1. cbn. now rewrite <- !app_assoc.
Qed.

(** C5. On every data-serving route ([/products], [/odata/{allowed
    name}], [/{name}]) a throw anywhere in the three-call chain is
    caught: the handler returns normally with status 500 and a text
    fixed by the route and the entity alone, never the data; the error
    message, and the upstream status and body when the error carries
    them, go to the console only.  In particular, when the token
    exchange is answered with a status outside 200..299 the chain stops
    after that one call and the answer is this 500. *)
Theorem data_routes_fail_closed (r : route) (param entity : string) w :
  target_entity r param = Some entity ->
  (forall err w',
      fetchODataEntity upstream destService entity w = (Throw err, w') ->
      handler upstream destService r param w
      = (Return {| status := 500; payload := Text (failure_text r param) |},
         logged (error_prefix r param) err w'))
  /\ (forall st data u',
         upstream (up w) (tokenRequest destService) = (Replied st data, u') ->
         validateStatus st = false ->
         exists w',
           handler upstream destService r param w
           = (Return {| status := 500; payload := Text (failure_text r param) |},
              w')
           /\ calls w' = (calls w ++ [tokenRequest destService])%list
           /\ console w'
              = (console w
                   ++ [[LStr (error_prefix r param);
                        LStr ("Request failed with status code " ++ decimal st)];
                       [LStr "Remote error:"; LNum st; LJson data]])%list).
Proof.
  intros Htarget.
  assert (Hcatch : forall err w',
    fetchODataEntity upstream destService entity w = (Throw err, w') ->
    handler upstream destService r param w
    = (Return {| status := 500; payload := Text (failure_text r param) |},
       logged (error_prefix r param) err w')).
  { intros err w' Hf.
    destruct r as [| | |e];
      cbn [target_entity handler failure_text error_prefix] in Htarget |- *.
    - discriminate.
    - injection Htarget as <-. now apply productsRoute_Throw.
    - destruct (includes ALLOWED_ENTITIES param) eqn:Hin; [|discriminate].
      injection Htarget as <-. apply includes_In in Hin.
      now apply odataRoute_Throw.
    - injection Htarget as <-. now apply entityRoute_Throw. }
  split; [exact Hcatch|].
  intros st data u' Hup Hst.
  exists (logged (error_prefix r param)
            (AxiosError ("Request failed with status code " ++ decimal st)
                        (Some (st, data)))
            (sent (tokenRequest destService) u' w)).
  split; [|split; reflexivity].
  apply Hcatch. apply fetch_token_Throw.
  rewrite getDestinationToken_eq. apply bind_Throw.
  now apply axios_rejected.
Qed.

(** C6 (amended). The token acquirer makes one POST to
    [url ++ "/oauth/token"] with the form body
    [grant_type=client_credentials] and Basic auth from [clientid] and
    [clientsecret], once, whatever the answer.  A status outside
    200..299, or no answer, is thrown; so is reading [access_token] off
    a [null] body.  On any other 2xx body it returns the [access_token]
    property, which is [undefined] when the body is an object without
    it or is not an object at all (text that is not JSON): that is a
    normal return, not a failure. *)
Theorem token_acquirer_contract w :
  let req :=
    {| req_method := POST;
       req_url := url destService ++ "/oauth/token";
       req_data := Some [("grant_type", "client_credentials")];
       req_auth := Some (clientid destService, clientsecret destService);
       req_headers := [] |} in
  calls (snd (getDestinationToken upstream destService w))
  = (calls w ++ [req])%list
  /\ match upstream (up w) req with
     | (Replied st data, u') =>
         getDestinationToken upstream destService w
         = (if validateStatus st then
              match data with
              | JNull =>
                  Throw (TypeError
                    "Cannot read properties of null (reading 'access_token')")
              | JObj fields => Return (lookup "access_token" fields)
              | _ => Return undefined
              end
            else
              Throw (AxiosError
                       ("Request failed with status code " ++ decimal st)
                       (Some (st, data))),
            sent req u' w)
     | (NoReply m, u') =>
         getDestinationToken upstream destService w
         = (Throw (AxiosError m None), sent req u' w)
     end.
Proof.
  intros req. split.
  - now rewrite getDestinationToken_sent.
  - destruct (upstream (up w) req) as [[st data|m] u'] eqn:E.
    + rewrite getDestinationToken_eq.
      destruct (validateStatus st) eqn:Hst.
      * rewrite (bind_Return _ _ _ _ _ (axios_answered _ _ _ _ _ _ _ E Hst)).
        now destruct data.
      * apply bind_Throw. now apply axios_rejected.
    + rewrite getDestinationToken_eq. apply bind_Throw.
      now apply axios_unanswered.
Qed.

(** C7. The destination resolver makes one GET to
    [uri ++ "/destination-configuration/v1/destinations/" ++ name] with
    the header [Authorization: Bearer <token>], where [name] is the
    value of [DESTINATION_NAME] when it is set (and not empty) and
    "Products" otherwise, and returns the [destinationConfiguration]
    property of the answer.  When the answer
    has a status outside 200..299, or the configuration provides no URL
    (the property is missing), the chain that called it throws and the
    route answers 500. *)
Theorem destination_resolver_contract accessToken w :
  let req :=
    {| req_method := GET;
       req_url := uri destService
                    ++ "/destination-configuration/v1/destinations/"
                    ++ match DESTINATION_NAME w with
                       | None => "Products"
                       | Some "" => "Products"
                       | Some configured => configured
                       end;
       req_data := None;
       req_auth := None;
       req_headers := [("Authorization", "Bearer " ++ template accessToken)] |} in
  calls (snd (getDestinationConfig upstream destService accessToken w))
  = (calls w ++ [req])%list
  /\ (forall t, accessToken = Some (JStr t) ->
        req_headers req = [("Authorization", "Bearer " ++ t)])
  /\ (DESTINATION_NAME w = None ->
        req_url req
        = uri destService ++ "/destination-configuration/v1/destinations/Products")
  /\ (forall configured,
        DESTINATION_NAME w = Some configured -> configured <> "" ->
        req_url req
        = uri destService ++ "/destination-configuration/v1/destinations/"
            ++ configured)
  /\ (forall st fields u',
        upstream (up w) req = (Replied st (JObj fields), u') ->
        validateStatus st = true ->
        getDestinationConfig upstream destService accessToken w
        = (Return (lookup "destinationConfiguration" fields), sent req u' w))
  /\ (forall entity w0,
        getDestinationToken upstream destService w0 = (Return accessToken, w) ->
        (forall st data u',
            upstream (up w) req = (Replied st data, u') ->
            validateStatus st = false ->
            fetchODataEntity upstream destService entity w0
            = (Throw (AxiosError
                        ("Request failed with status code " ++ decimal st)
                        (Some (st, data))),
               sent req u' w)
            /\ fst (entityRoute upstream destService entity w0)
               = Return {| status := 500;
                           payload := Text ("Failed to fetch " ++ entity) |})
        /\ (forall destConfig w2,
               getDestinationConfig upstream destService accessToken w
               = (Return destConfig, w2) ->
               config_URL destConfig = None ->
               (exists m,
                   fetchODataEntity upstream destService entity w0
                   = (Throw (TypeError m), w2))
               /\ fst (entityRoute upstream destService entity w0)
                  = Return {| status := 500;
                              payload := Text ("Failed to fetch " ++ entity) |})).
Proof.
  intros req. split; [|split; [|split; [|split; [|split]]]].
  - now rewrite getDestinationConfig_sent.
  - now intros t ->.
  - unfold req. cbn. now intros ->.
  - unfold req. cbn. intros configured -> Hne.
    destruct configured; [now contradiction Hne | reflexivity].
  - intros st fields u' Hup Hst. rewrite getDestinationConfig_eq.
    now rewrite (bind_Return _ _ _ _ _ (axios_answered _ _ _ _ _ _ _ Hup Hst)).
  - intros entity w0 Ht. split.
    + intros st data u' Hup Hst.
      assert (Hc : getDestinationConfig upstream destService accessToken w
                   = (Throw (AxiosError
                               ("Request failed with status code " ++ decimal st)
                               (Some (st, data))),
                      sent req u' w)).
      { rewrite getDestinationConfig_eq. apply bind_Throw.
        now apply axios_rejected. }
      pose proof (fetch_config_Throw _ _ _ entity _ _ _ _ _ Ht Hc) as Hf.
      split; [exact Hf|]. now rewrite (entityRoute_Throw _ _ _ _ _ _ _ Hf).
    + intros destConfig w2 Hc Hu.
      destruct (fetch_no_URL _ _ _ entity _ _ _ _ _ Ht Hc Hu) as [m Hf].
      split; [now exists m|]. now rewrite (entityRoute_Throw _ _ _ _ _ _ _ Hf).
Qed.


(** C10 (amended). The destination name is read inside each lookup:
    the lookup made in a world where [DESTINATION_NAME] is [v] asks for
    [v], or for "Products" when [v] is unset or empty.  Every run of
    the chain starts with the token request built from the credentials
    the process was started with, and its second call, when there is
    one, is the lookup under the name the variable has in that run; the
    run does not change the variable.  Whenever a started process serves
    a request, it does so with the credentials found at startup,
    whatever the variable holds by then. *)
Theorem destination_name_read_per_request :
  (forall accessToken w v,
      calls (snd (getDestinationConfig upstream destService accessToken
                    (set_DESTINATION_NAME v w)))
      = (calls w
           ++ [configRequest destService
                 match v with
                 | None => "Products"
                 | Some "" => "Products"
                 | Some name => name
                 end
                 accessToken])%list)
  /\ (forall entity w,
        let w' := snd (fetchODataEntity upstream destService entity w) in
        DESTINATION_NAME w' = DESTINATION_NAME w
        /\ exists rest,
             calls w' = (calls w ++ tokenRequest destService :: rest)%list
             /\ (rest = [] \/
                 exists tok more,
                   rest = configRequest destService
                            (or_default (DESTINATION_NAME w) "Products") tok
                          :: more))
  /\ (forall env_PORT listen r param w v out,
        serve upstream (startup (Some destService) env_PORT listen) r param
              (set_DESTINATION_NAME v w)
        = Some out ->
        out = handler upstream destService r param (set_DESTINATION_NAME v w)).
Proof.
  split; [|split].
  - intros accessToken w v. now rewrite getDestinationConfig_sent.
  - intros entity w.
    destruct (fetch_calls _ upstream destService entity w)
      as (Henv & _ & rest & Hcalls & Hrest).
    cbv zeta. split; [exact Henv|]. exists rest. split; [exact Hcalls|].
    destruct Hrest as [->|(tok & [->|(base & ->)])]; [now left| |];
      right; exists tok; eauto.
  - intros env_PORT listen r param w v out. rewrite startup_bound.
    unfold serve.
    destruct (listen (PORT env_PORT)) as [|report];
      cbn [exit_code listening services_dest registered].
    + destruct (existsb _ _); [|discriminate]. intros H. now injection H as <-.
    + discriminate.
Qed.

End Claims.

(** * The claims on the sample deployments *)

Import Sample.

Lemma root_route_sample :
  rootRoute w0
  = (Return {| status := 200;
               payload := Text "✅ Northwind Node app using Destination 'Products' is running. Call /products, /Customers or /odata/Products etc." |},
     w0).
Proof. reflexivity. Qed.

(** The generic route refuses the lower-case name, with the upstream in
    working order and without calling it. *)
Lemma odata_rejects_unlisted_witness :
  ~ In "products" ALLOWED_ENTITIES
  /\ odataRoute healthy creds "products" w0
     = (Return {| status := 400;
                  payload := Text "Entity 'products' is not allowed. Allowed: Categories, CustomerDemographics, Customers, Employees, Order_Details, Orders, Products, Regions" |},
        w0).
Proof.
  assert (Hout : ~ In "products" ALLOWED_ENTITIES).
  { cbn. intros H. repeat (destruct H as [H|H]; [discriminate H|]). exact H. }
  split; [exact Hout|].
  exact (proj1 (odata_rejects_unlisted unit healthy creds "products" w0 Hout)).
Defined.

(** One trailing slash: the sample destination. *)
Lemma trailing_slash_stripped_once_witness :
  ends_with_slash "https://services.odata.org/northwind/northwind.svc" = false
  /\ replace_trailing_slash northwind_svc
     = "https://services.odata.org/northwind/northwind.svc"
  /\ fetchODataEntity healthy creds "Products" w0
     = axios healthy
         (dataRequest "https://services.odata.org/northwind/northwind.svc/Products?$format=json")
         (snd (getDestinationConfig healthy creds (Some (JStr "t0k3n"))
                 (snd (getDestinationToken healthy creds w0)))).
Proof.
  split; [reflexivity|].
  destruct (trailing_slash_stripped_once unit healthy creds
              "https://services.odata.org/northwind/northwind.svc" "Products"
              northwind_svc eq_refl (or_intror eq_refl)) as (Hs & _ & Hf).
  split; [exact Hs|].
  eapply Hf; lazy; reflexivity.
Defined.

(** C2, as stated, fails: of two trailing slashes one survives, and the
    data request then carries [//Products]. *)
Lemma two_trailing_slashes_survive :
  replace_trailing_slash "https://services.odata.org/northwind/northwind.svc//"
  = "https://services.odata.org/northwind/northwind.svc/"
  /\ nth_error (calls (snd (fetchODataEntity two_slashes creds "Products" w0))) 2
     = Some (dataRequest
               "https://services.odata.org/northwind/northwind.svc//Products?$format=json")
  /\ contains
       "https://services.odata.org/northwind/northwind.svc//Products?$format=json"
       "//Products"
  /\ odataUrl (replace_trailing_slash
                 "https://services.odata.org/northwind/northwind.svc//") "Products"
     <> odataUrl (replace_trailing_slash
                    "https://services.odata.org/northwind/northwind.svc") "Products".
Proof.
  split; [reflexivity|]. split; [reflexivity|]. split.
  - exists "https://services.odata.org/northwind/northwind.svc", "?$format=json".
    reflexivity.
  - discriminate.
Qed.

Lemma odata_and_shortcut_agree_witness :
  In "Products" ALLOWED_ENTITIES
  /\ odataRoute healthy creds "Products" w0
     = (Return {| status := 200; payload := Json products_body |},
        snd (fetchODataEntity healthy creds "Products" w0))
  /\ entityRoute healthy creds "Products" w0
     = (Return {| status := 200; payload := Json products_body |},
        snd (fetchODataEntity healthy creds "Products" w0)).
Proof.
  assert (Hin : In "Products" ALLOWED_ENTITIES) by (cbn; tauto).
  split; [exact Hin|].
  exact (proj2 (odata_and_shortcut_agree unit healthy creds "Products" w0 Hin)).
Defined.

(** C1, as stated, fails: on the same error the two routes send
    different texts. *)
Lemma odata_and_shortcut_texts_differ :
  In "Products" ALLOWED_ENTITIES
  /\ fst (odataRoute token_down creds "Products" w0)
     = Return {| status := 500; payload := Text "Failed to fetch entity 'Products'" |}
  /\ fst (entityRoute token_down creds "Products" w0)
     = Return {| status := 500; payload := Text "Failed to fetch Products" |}
  /\ fst (odataRoute token_down creds "Products" w0)
     <> fst (entityRoute token_down creds "Products" w0).
Proof.
  split; [cbn; tauto|]. split; [reflexivity|]. split; [reflexivity|].
  discriminate.
Qed.

Lemma get_Products_scenario_witness :
  exists w3,
    entityRoute healthy creds "Products" w0
    = (Return {| status := 200; payload := Json products_body |}, w3)
    /\ productsRoute healthy creds w0
       = (Return {| status := 200; payload := Json products_body |}, w3)
    /\ calls w3
       = [tokenRequest creds;
          configRequest creds "Products" (Some (JStr "t0k3n"));
          dataRequest "https://services.odata.org/northwind/northwind.svc/Products?$format=json"].
Proof.
  eapply (get_Products_scenario unit healthy creds w0); lazy; reflexivity.
Defined.

Lemma data_routes_fail_closed_witness :
  target_entity OdataParam "Orders" = Some "Orders"
  /\ handler token_down creds OdataParam "Orders" w0
     = (Return {| status := 500; payload := Text "Failed to fetch entity 'Orders'" |},
        {| up := tt;
           calls := [tokenRequest creds];
           console :=
             [[LStr "Error in /odata/Orders:";
               LStr "Request failed with status code 401"];
              [LStr "Remote error:"; LNum 401;
               LJson (JObj [("error", JStr "unauthorized")])]];
           DESTINATION_NAME := None |}).
Proof.
  split; [reflexivity|].
  destruct (data_routes_fail_closed unit token_down creds OdataParam "Orders"
              "Orders" w0 eq_refl) as [Hcatch _].
  eapply eq_trans; [eapply Hcatch; lazy; reflexivity | reflexivity].
Defined.

(** C6, as stated, fails: a 200 answer whose body is not JSON, or is JSON
    without the property, makes the acquirer return [undefined]. *)
Lemma garbled_token_body_is_not_a_failure :
  fst (token_garbled tt (tokenRequest creds))
  = Replied 200 (JStr "<html>maintenance</html>")
  /\ fst (getDestinationToken token_garbled creds w0) = Return undefined
  /\ fst (getDestinationToken
            (upstream_of (Replied 200 (JObj [("error", JStr "invalid_client")]))
                         (config_service northwind_svc) data_service)
            creds w0)
     = Return undefined.
Proof. repeat split. Qed.

Lemma destination_resolver_contract_witness :
  getDestinationConfig healthy creds (Some (JStr "t0k3n"))
    (snd (getDestinationToken healthy creds w0))
  = (Return (Some (JObj [("Name", JStr "Products"); ("Type", JStr "HTTP");
                         ("URL", JStr northwind_svc);
                         ("Authentication", JStr "NoAuthentication")])),
     {| up := tt;
        calls := [tokenRequest creds;
                  configRequest creds "Products" (Some (JStr "t0k3n"))];
        console := [];
        DESTINATION_NAME := None |})
  /\ map req_url
       (calls (snd (getDestinationConfig healthy creds (Some (JStr "t0k3n"))
                      (set_DESTINATION_NAME (Some "Backup") w0))))
     = ["https://dest.example/destination-configuration/v1/destinations/Backup"]
  /\ fst (entityRoute no_URL creds "Products" w0)
     = Return {| status := 500; payload := Text "Failed to fetch Products" |}
  /\ fst (entityRoute token_garbled creds "Products" w0)
     = Return {| status := 500; payload := Text "Failed to fetch Products" |}.
Proof.
  split; [|split; [|split]].
  - destruct (destination_resolver_contract unit healthy creds
                (Some (JStr "t0k3n")) (snd (getDestinationToken healthy creds w0)))
      as (_ & _ & _ & _ & Hok & _).
    eapply eq_trans; [eapply Hok; lazy; reflexivity | reflexivity].
  - destruct (destination_resolver_contract unit healthy creds
                (Some (JStr "t0k3n")) (set_DESTINATION_NAME (Some "Backup") w0))
      as (Hcalls & _ & _ & Hname & _).
    rewrite Hcalls. cbn [map calls set_DESTINATION_NAME w0 app].
    rewrite (Hname "Backup" eq_refl); [reflexivity | discriminate].
  - destruct (destination_resolver_contract unit no_URL creds
                (Some (JStr "t0k3n")) (snd (getDestinationToken no_URL creds w0)))
      as (_ & _ & _ & _ & _ & Hchain).
    destruct (Hchain "Products" w0 eq_refl) as [_ Hmissing].
    eapply Hmissing; lazy; reflexivity.
  - destruct (destination_resolver_contract unit token_garbled creds
                undefined (snd (getDestinationToken token_garbled creds w0)))
      as (_ & _ & _ & _ & _ & Hchain).
    destruct (Hchain "Products" w0 eq_refl) as [Hrejected _].
    eapply Hrejected; lazy; reflexivity.
Defined.



Lemma destination_name_read_per_request_witness :
  exists out,
    serve healthy (startup (Some creds) (Some "8080") any_port)
      ProductsLower "" (set_DESTINATION_NAME (Some "Backup") w0)
    = Some out
    /\ out = handler healthy creds ProductsLower ""
               (set_DESTINATION_NAME (Some "Backup") w0).
Proof.
  eexists. split; [reflexivity|].
  apply (proj2 (proj2 (destination_name_read_per_request unit healthy creds))
           (Some "8080") any_port ProductsLower "" w0 (Some "Backup")).
  reflexivity.
Defined.

(** C10, as stated, fails: set to the empty string, the variable's value
    is not the name looked up. *)
Lemma empty_DESTINATION_NAME_falls_back :
  DESTINATION_NAME (set_DESTINATION_NAME (Some "") w0) = Some ""
  /\ map req_url
       (calls (snd (getDestinationConfig healthy creds (Some (JStr "t0k3n"))
                      (set_DESTINATION_NAME (Some "") w0))))
     = ["https://dest.example/destination-configuration/v1/destinations/Products"]
  /\ "https://dest.example/destination-configuration/v1/destinations/Products"
     <> "https://dest.example/destination-configuration/v1/destinations/" ++ "".
Proof. split; [reflexivity|]. split; [reflexivity|]. discriminate. Qed.

(** Two requests with the variable changed in between: the second lookup
    asks for the new name, both token requests are the same. *)
Lemma variable_changed_between_requests :
  let w1 := snd (entityRoute healthy creds "Products" w0) in
  let w2 := snd (entityRoute healthy creds "Products"
                   (set_DESTINATION_NAME (Some "Backup") w1)) in
  map req_url (calls w2)
  = ["https://auth.example/oauth/token";
     "https://dest.example/destination-configuration/v1/destinations/Products";
     "https://services.odata.org/northwind/northwind.svc/Products?$format=json";
     "https://auth.example/oauth/token";
     "https://dest.example/destination-configuration/v1/destinations/Backup";
     "https://backup.example/svc/Products?$format=json"]
  /\ map req_auth (calls w2)
     = [Some ("cid", "s3cret"); None; None; Some ("cid", "s3cret"); None; None].
Proof. split; reflexivity. Qed.

(** * Further properties of the server *)

(** ** Computations that do not read the history *)

Section Framing.

Variable U : Type.
Variable upstream : U -> request -> outcome * U.
Variable destService : credentials.

Lemma prepend_fresh (w : world U) : prepend w (fresh w) = w.
Proof. destruct w. unfold prepend, fresh. cbn. now rewrite !app_nil_r. Qed.

Lemma framed_ret {A} (a : A) : framed (ret (U := U) a).
Proof. now intros h w. Qed.

Lemma framed_throw {A} (err : exn) : framed (throw (U := U) (A := A) err).
Proof. now intros h w. Qed.

Lemma framed_bind {A B} (m : M U A) (k : A -> M U B) :
  framed m -> (forall a, framed (k a)) -> framed (bind m k).
Proof.
  intros Hm Hk h w. unfold bind. rewrite Hm.
  destruct (m w) as [[a|err] w1]; cbn [fst snd]; [apply Hk | reflexivity].
Qed.

Lemma framed_try_catch {A} (m : M U A) (handle : exn -> M U A) :
  framed m -> (forall err, framed (handle err)) -> framed (try_catch m handle).
Proof.
  intros Hm Hh h w. unfold try_catch. rewrite Hm.
  destruct (m w) as [[a|err] w1]; cbn [fst snd]; [reflexivity | apply Hh].
Qed.

Lemma framed_axios (req : request) : framed (axios upstream req).
Proof.
  intros h w. unfold axios, prepend. cbn.
  destruct (upstream (up w) req) as [[st data|m] u']; cbn.
  - destruct (validateStatus st); cbn; now rewrite app_assoc.
  - now rewrite app_assoc.
Qed.

Lemma framed_member (v : value) (name : string) : framed (member (U := U) v name).
Proof. unfold member. destruct v as [[]|]; solve [apply framed_ret | apply framed_throw]. Qed.

Lemma framed_URL_replace (v : value) : framed (URL_replace (U := U) v).
Proof.
  unfold URL_replace.
  destruct v as [[]|]; solve [apply framed_ret | apply framed_throw].
Qed.

Lemma framed_console_error (args : list logarg) :
  framed (console_error (U := U) args).
Proof. intros h w. unfold console_error, prepend. cbn. now rewrite app_assoc. Qed.

Lemma framed_log_remote (err : exn) : framed (log_remote (U := U) err).
Proof.
  unfold log_remote. destruct (err_response err) as [[st data]|];
    [apply framed_console_error | apply framed_ret].
Qed.

Lemma framed_getDestinationToken :
  framed (getDestinationToken upstream destService).
Proof.
  apply framed_bind; [apply framed_axios | intros; apply framed_member].
Qed.

Lemma framed_getDestinationConfig (accessToken : value) :
  framed (getDestinationConfig upstream destService accessToken).
Proof.
  apply framed_bind; [now intros h w|].
  intros env. apply framed_bind; [apply framed_axios | intros; apply framed_member].
Qed.

Lemma framed_fetchODataEntity (entity : string) :
  framed (fetchODataEntity upstream destService entity).
Proof.
  apply framed_bind; [apply framed_getDestinationToken|]. intros tok.
  apply framed_bind; [apply framed_getDestinationConfig|]. intros cfg.
  apply framed_bind; [apply framed_member|]. intros URL.
  apply framed_bind; [apply framed_URL_replace|]. intros baseUrl.
  apply framed_axios.
Qed.

Lemma framed_catch (prefix text : string) (err : exn) :
  framed (bind (console_error (U := U) [LStr prefix; LStr (message err)])
            (fun _ => bind (log_remote err) (fun _ => res_send 500 text))).
Proof.
  apply framed_bind; [apply framed_console_error|]. intros _.
  apply framed_bind; [apply framed_log_remote|]. intros _. apply framed_ret.
Qed.

Lemma framed_guarded_fetch (entity prefix text : string) :
  framed (try_catch
            (bind (fetchODataEntity upstream destService entity)
                  (fun data => res_json data))
            (fun err =>
               bind (console_error [LStr prefix; LStr (message err)])
                    (fun _ => bind (log_remote err)
                                   (fun _ => res_send 500 text)))).
Proof.
  apply framed_try_catch.
  - apply framed_bind; [apply framed_fetchODataEntity|]. intros. apply framed_ret.
  - intros err. apply framed_catch.
Qed.

Lemma framed_handler (r : route) (param : string) :
  framed (handler upstream destService r param).
Proof.
  destruct r as [| | |entity]; cbn [handler].
  - apply framed_ret.
  - apply framed_guarded_fetch.
  - unfold odataRoute. destruct (negb (includes ALLOWED_ENTITIES param)).
    + apply framed_ret.
    + apply framed_guarded_fetch.
  - apply framed_guarded_fetch.
Qed.

(** What a route leaves in the world besides its console lines is what
    the chain it runs leaves. *)
Lemma handler_trace (r : route) (param : string) (w : world U) :
  let h := snd (handler upstream destService r param w) in
  match target_entity r param with
  | Some entity =>
      let f := snd (fetchODataEntity upstream destService entity w) in
      up h = up f /\ calls h = calls f /\ DESTINATION_NAME h = DESTINATION_NAME f
  | None => h = w
  end.
Proof.
  destruct r as [| | |entity]; cbn [target_entity handler]; cbv zeta.
  - reflexivity.
  - destruct (fetchODataEntity upstream destService "Products" w)
      as [[data|err] w'] eqn:E.
    + now rewrite (productsRoute_Return _ _ _ _ _ _ E).
    + now rewrite (productsRoute_Throw _ _ _ _ _ _ E).
  - destruct (includes ALLOWED_ENTITIES param) eqn:Hin.
    + apply includes_In in Hin.
      destruct (fetchODataEntity upstream destService param w)
        as [[data|err] w'] eqn:E.
      * now rewrite (odataRoute_Return _ _ _ _ _ _ _ Hin E).
      * now rewrite (odataRoute_Throw _ _ _ _ _ _ _ Hin E).
    + unfold odataRoute. now rewrite Hin.
  - destruct (fetchODataEntity upstream destService entity w)
      as [[data|err] w'] eqn:E.
    + now rewrite (entityRoute_Return _ _ _ _ _ _ _ E).
    + now rewrite (entityRoute_Throw _ _ _ _ _ _ _ E).
Qed.

End Framing.

(** ** Reading results backwards *)

Section Inversion.

Variable U : Type.
Variable upstream : U -> request -> outcome * U.
Variable destService : credentials.

Implicit Types (w : world U) (req : request) (err : exn).

Lemma axios_Return_inv req w data w' :
  axios upstream req w = (Return data, w') ->
  exists st u',
    upstream (up w) req = (Replied st data, u')
    /\ validateStatus st = true /\ w' = sent req u' w.
Proof.
  unfold axios. destruct (upstream (up w) req) as [[st d|m] u']; [|discriminate].
  destruct (validateStatus st) eqn:Hst; [|discriminate].
  intros H. injection H as <- <-. now exists st, u'.
Qed.

Lemma axios_Throw_inv req w err w' st data :
  axios upstream req w = (Throw err, w') ->
  err_response err = Some (st, data) ->
  validateStatus st = false
  /\ exists u', upstream (up w) req = (Replied st data, u') /\ w' = sent req u' w.
Proof.
  unfold axios. destruct (upstream (up w) req) as [[st0 d|m] u'].
  - destruct (validateStatus st0) eqn:Hst; [discriminate|].
    intros H. injection H as <- <-. cbn. intros H. injection H as <- <-.
    split; [exact Hst|]. now exists u'.
  - intros H. injection H as <- <-. discriminate.
Qed.

Lemma member_Throw (v : value) (name : string) w err w' :
  member v name w = (Throw err, w') -> err_response err = None.
Proof.
  unfold member, ret, throw.
  destruct v as [[]|]; intros H; try discriminate; now injection H as <- <-.
Qed.

Lemma URL_replace_Throw (v : value) w err w' :
  URL_replace v w = (Throw err, w') -> err_response err = None.
Proof.
  unfold URL_replace, ret, throw.
  destruct v as [[]|]; intros H; try discriminate; now injection H as <- <-.
Qed.

(** An error of the chain that carries a response was thrown by axios,
    at the last call made. *)
Lemma bind_axios_member_Throw req name w err w' st data :
  bind (axios upstream req) (fun d => member (Some d) name) w = (Throw err, w') ->
  err_response err = Some (st, data) ->
  validateStatus st = false
  /\ exists u', upstream (up w) req = (Replied st data, u') /\ w' = sent req u' w.
Proof.
  unfold bind. destruct (axios upstream req w) as [[d|e] w1] eqn:E.
  - intros H Hr. apply member_Throw in H. congruence.
  - intros H Hr. injection H as <- <-. now apply (axios_Throw_inv _ _ _ _ _ _ E).
Qed.

(** Once the token is in hand the next call is the lookup that carries it. *)
Lemma fetch_calls_after_token entity w tok w1 :
  getDestinationToken upstream destService w = (Return tok, w1) ->
  exists rest,
    calls (snd (fetchODataEntity upstream destService entity w))
    = (calls w1
         ++ configRequest destService
              (or_default (DESTINATION_NAME w1) "Products") tok :: rest)%list.
Proof.
  intros Et.
  pose proof (getDestinationConfig_sent _ upstream destService tok w1) as Hc.
  cbv zeta in Hc.
  destruct (getDestinationConfig upstream destService tok w1)
    as [[cfg|err] w2] eqn:Ec; cbn [snd] in Hc; subst w2.
  2:{ rewrite (fetch_config_Throw _ _ _ _ _ _ _ _ _ Et Ec). now exists []. }
  destruct (config_URL cfg) as [base|] eqn:Eu.
  - rewrite (fetch_data_call _ _ _ _ _ _ _ _ _ _ Et Ec Eu).
    match goal with
    | |- context [axios upstream ?r ?x] =>
        destruct (axios_sent U upstream r x) as [res ->]
    end.
    cbn. eexists. now rewrite <- app_assoc.
  - destruct (fetch_no_URL _ _ _ entity _ _ _ _ _ Et Ec Eu) as [m ->].
    now exists [].
Qed.

(** The chain returns only after three answered calls. *)
Lemma fetch_Return_inv entity w data w' :
  fetchODataEntity upstream destService entity w = (Return data, w') ->
  exists tok w2 base st u3,
    calls w2
    = (calls w
         ++ [tokenRequest destService;
             configRequest destService
               (or_default (DESTINATION_NAME w) "Products") tok])%list
    /\ upstream (up w2)
         (dataRequest (odataUrl (replace_trailing_slash base) entity))
       = (Replied st data, u3)
    /\ validateStatus st = true
    /\ w' = sent (dataRequest (odataUrl (replace_trailing_slash base) entity))
                 u3 w2.
Proof.
  intros Hf.
  pose proof (getDestinationToken_sent _ upstream destService w) as H1.
  destruct (getDestinationToken upstream destService w) as [[tok|err] w1] eqn:Et;
    cbn [snd] in H1.
  2:{ rewrite (fetch_token_Throw _ _ _ _ _ _ _ Et) in Hf. discriminate. }
  pose proof (getDestinationConfig_sent _ upstream destService tok w1) as H2.
  cbv zeta in H2.
  destruct (getDestinationConfig upstream destService tok w1)
    as [[cfg|err] w2] eqn:Ec; cbn [snd] in H2.
  2:{ rewrite (fetch_config_Throw _ _ _ _ _ _ _ _ _ Et Ec) in Hf. discriminate. }
  destruct (config_URL cfg) as [base|] eqn:Eu.
  - rewrite (fetch_data_call _ _ _ _ _ _ _ _ _ _ Et Ec Eu) in Hf.
    apply axios_Return_inv in Hf. destruct Hf as (st & u3 & Hup & Hst & ->).
    exists tok, w2, base, st, u3. repeat split; try assumption.
    subst w2 w1. cbn. now rewrite <- app_assoc.
  - destruct (fetch_no_URL _ _ _ entity _ _ _ _ _ Et Ec Eu) as [m Hm].
    rewrite Hm in Hf. discriminate.
Qed.

Lemma target_allowed (r : route) (param entity : string) :
  In r app_routes -> target_entity r param = Some entity ->
  In entity ALLOWED_ENTITIES.
Proof.
  intros Hr Ht. destruct r as [| | |e]; cbn [target_entity] in Ht.
  - discriminate.
  - injection Ht as <-. cbn. tauto.
  - destruct (includes ALLOWED_ENTITIES param) eqn:Hin; [|discriminate].
    injection Ht as <-. now apply includes_In.
  - injection Ht as <-. unfold app_routes in Hr.
    apply in_app_or in Hr. destruct Hr as [Hr|Hr].
    + cbn in Hr. repeat (destruct Hr as [Hr|Hr]; [discriminate Hr|]).
      contradiction.
    + apply in_map_iff in Hr. destruct Hr as (x & Hx & Hin).
      now injection Hx as <-.
Qed.

End Inversion.

(** ** Properties of the routes and the chain *)

Section Extras.

Variable U : Type.
Variable upstream : U -> request -> outcome * U.
Variable destService : credentials.

Implicit Types (w : world U) (r : route) (param entity : string).

(** X1. The handler registered for [/products] and the handler the
    [forEach] registers for [/Products] are interchangeable for the
    caller and for the upstream: in every world they send the same
    response, make the same outbound calls and leave the upstream in the
    same state.  Their console output is the same too, except for the
    first argument of the error line: "Error in /products:" in the one,
    "Error in /Products:" in the other. *)
Theorem products_route_same_as_shortcut w :
  let a := productsRoute upstream destService w in
  let b := entityRoute upstream destService "Products" w in
  fst a = fst b
  /\ up (snd a) = up (snd b)
  /\ calls (snd a) = calls (snd b)
  /\ DESTINATION_NAME (snd a) = DESTINATION_NAME (snd b)
  /\ ((console (snd a) = console w /\ console (snd b) = console w)
      \/ exists msg rest,
           console (snd a)
           = (console w ++ [LStr "Error in /products:"; LStr msg] :: rest)%list
           /\ console (snd b)
              = (console w ++ [LStr "Error in /Products:"; LStr msg] :: rest)%list).
Proof.
  cbv zeta.
  destruct (fetch_calls _ upstream destService "Products" w) as (_ & Hcon & _).
  destruct (fetchODataEntity upstream destService "Products" w)
    as [[data|err] w'] eqn:E; cbn [snd] in Hcon.
  - rewrite (productsRoute_Return _ _ _ _ _ _ E),
            (entityRoute_Return _ _ _ _ _ _ _ E).
    do 4 (split; [reflexivity|]). now left.
  - rewrite (productsRoute_Throw _ _ _ _ _ _ E),
            (entityRoute_Throw _ _ _ _ _ _ _ E).
    do 4 (split; [reflexivity|]). right.
    exists (message err),
           (match err_response err with
            | Some (st, data) => [[LStr "Remote error:"; LNum st; LJson data]]
            | None => []
            end).
    cbn [snd console logged]. rewrite Hcon. now split.
Qed.

(** X2. Whatever the request, a registered route sends upstream only the
    token request, the destination lookup, and a data request for an
    entity of the allow-list; the data request is a bare GET (no auth, no
    header, no body), so neither the client secret nor the bearer token
    reaches the data provider. *)
Theorem registered_routes_stay_in_allow_list r param w :
  In r app_routes ->
  exists extra,
    calls (snd (handler upstream destService r param w))
    = (calls w ++ extra)%list
    /\ Forall
         (fun req =>
            req = tokenRequest destService
            \/ (exists tok,
                   req = configRequest destService
                           (or_default (DESTINATION_NAME w) "Products") tok)
            \/ (exists base entity,
                   In entity ALLOWED_ENTITIES
                   /\ req = {| req_method := GET;
                               req_url := replace_trailing_slash base
                                            ++ "/" ++ entity ++ "?$format=json";
                               req_data := None;
                               req_auth := None;
                               req_headers := [] |}))
         extra.
Proof.
  intros Hr.
  pose proof (handler_trace _ upstream destService r param w) as Ht.
  cbv zeta in Ht.
  destruct (target_entity r param) as [entity|] eqn:Etarget.
  - destruct Ht as (_ & -> & _).
    pose proof (target_allowed r param entity Hr Etarget) as Hin.
    destruct (fetch_calls _ upstream destService entity w)
      as (_ & _ & rest & -> & Hrest).
    exists (tokenRequest destService :: rest). split; [reflexivity|].
    constructor; [now left|].
    destruct Hrest as [->|(tok & [->|(base & ->)])].
    + constructor.
    + constructor; [|constructor]. right. left. now exists tok.
    + constructor; [|constructor; [|constructor]].
      * right. left. now exists tok.
      * right. right. now exists base, entity.
  - rewrite Ht. exists []. split; [now rewrite app_nil_r | constructor].
Qed.

(** X3. A route that fetches starts every request with a fresh token
    exchange and makes at most three outbound calls; the root route and
    a refused [/odata] request make none and leave the upstream alone. *)
Theorem data_routes_call_budget r param w :
  let w' := snd (handler upstream destService r param w) in
  match target_entity r param with
  | Some _ =>
      exists rest,
        calls w' = (calls w ++ tokenRequest destService :: rest)%list
        /\ (List.length rest <= 2)%nat
  | None => calls w' = calls w /\ up w' = up w
  end.
Proof.
  pose proof (handler_trace _ upstream destService r param w) as Ht.
  cbv zeta in *.
  destruct (target_entity r param) as [entity|].
  - destruct Ht as (_ & -> & _).
    destruct (fetch_calls _ upstream destService entity w)
      as (_ & _ & rest & -> & Hrest).
    exists rest. split; [reflexivity|].
    destruct Hrest as [->|(tok & [->|(base & ->)])]; cbn; lia.
  - now rewrite Ht.
Qed.

(** X4. No route reads what earlier requests left behind: two worlds
    with the same upstream state and the same [DESTINATION_NAME] get the
    same response, the same new outbound calls and the same new console
    lines, and leave the upstream in the same state, whatever their
    histories.  Nothing is cached between requests. *)
Theorem handler_ignores_history r param w1 w2 :
  up w1 = up w2 ->
  DESTINATION_NAME w1 = DESTINATION_NAME w2 ->
  let a := handler upstream destService r param w1 in
  let b := handler upstream destService r param w2 in
  fst a = fst b
  /\ up (snd a) = up (snd b)
  /\ exists new_calls new_lines,
       calls (snd a) = (calls w1 ++ new_calls)%list
       /\ calls (snd b) = (calls w2 ++ new_calls)%list
       /\ console (snd a) = (console w1 ++ new_lines)%list
       /\ console (snd b) = (console w2 ++ new_lines)%list.
Proof.
  intros Hup Henv. cbv zeta.
  assert (Hfresh : fresh w1 = fresh w2) by (unfold fresh; now rewrite Hup, Henv).
  pose proof (framed_handler _ upstream destService r param w1 (fresh w1)) as H1.
  pose proof (framed_handler _ upstream destService r param w2 (fresh w2)) as H2.
  rewrite prepend_fresh in H1, H2. rewrite H1, H2, Hfresh. cbn.
  split; [reflexivity|]. split; [reflexivity|].
  exists (calls (snd (handler upstream destService r param (fresh w2)))),
         (console (snd (handler upstream destService r param (fresh w2)))).
  now repeat split.
Qed.

(** X5. The handler of every registered route answers with status 200,
    400 or 500.  It is 400 exactly on the generic route with a name
    outside the allow-list; a 500 always carries a text, never JSON; and
    nothing is written to the console unless the status is 500.  (A path
    that matches no registered route never reaches these handlers.) *)
Theorem handler_status_classes r param w :
  In r app_routes ->
  exists resp w',
    handler upstream destService r param w = (Return resp, w')
    /\ (status resp = 200 \/ status resp = 400 \/ status resp = 500)
    /\ (status resp = 400 <-> r = OdataParam /\ ~ In param ALLOWED_ENTITIES)
    /\ (status resp = 500 -> exists text, payload resp = Text text)
    /\ (status resp <> 500 -> console w' = console w).
Proof.
  intros _.
  assert (Hok : forall data w',
    exists resp w'',
      (Return {| status := 200; payload := Json data |}, w')
        = (Return resp, w'')
      /\ (status resp = 200 \/ status resp = 400 \/ status resp = 500)
      /\ (status resp = 400 -> False)
      /\ (status resp = 500 -> exists text, payload resp = Text text)
      /\ (status resp <> 500 -> console w'' = console w')).
  { intros data w'. eexists _, _. split; [reflexivity|]. cbn.
    split; [now left|]. split; [discriminate|]. split; [discriminate|].
    reflexivity. }
  assert (Hko : forall text w',
    exists resp w'',
      (Return {| status := 500; payload := Text text |}, w')
        = (Return resp, w'')
      /\ (status resp = 200 \/ status resp = 400 \/ status resp = 500)
      /\ (status resp = 400 -> False)
      /\ (status resp = 500 -> exists text, payload resp = Text text)
      /\ (status resp <> 500 -> console w'' = console w)).
  { intros text w'. eexists _, _. split; [reflexivity|]. cbn.
    split; [now right; right|]. split; [discriminate|]. split; [eauto|].
    intros H. now contradiction H. }
  destruct r as [| | |entity]; cbn [handler].
  - eexists _, w. split; [reflexivity|]. cbn [status payload].
    split; [now left|]. split; [split; [discriminate | now intros [? _]]|].
    split; [discriminate | reflexivity].
  - destruct (fetchODataEntity upstream destService "Products" w)
      as [[data|err] w'] eqn:E.
    + rewrite (productsRoute_Return _ _ _ _ _ _ E).
      destruct (Hok data w') as (resp & w'' & -> & H1 & H2 & H3 & H4).
      pose proof (fetch_calls _ upstream destService "Products" w) as Hc.
      rewrite E in Hc. cbn in Hc. destruct Hc as (_ & Hcon & _).
      exists resp, w''. split; [reflexivity|]. split; [exact H1|].
      split; [split; [intros H; now destruct (H2 H) | now intros [? _]]|].
      split; [exact H3|]. intros H. now rewrite (H4 H).
    + rewrite (productsRoute_Throw _ _ _ _ _ _ E).
      destruct (Hko "Failed to fetch Products"
                    (logged "Error in /products:" err w'))
        as (resp & w'' & -> & H1 & H2 & H3 & H4).
      exists resp, w''. split; [reflexivity|]. split; [exact H1|].
      split; [split; [intros H; now destruct (H2 H) | now intros [? _]]|].
      split; [exact H3 | exact H4].
  - destruct (includes ALLOWED_ENTITIES param) eqn:Hin.
    + apply includes_In in Hin.
      destruct (fetchODataEntity upstream destService param w)
        as [[data|err] w'] eqn:E.
      * rewrite (odataRoute_Return _ _ _ _ _ _ _ Hin E).
        destruct (Hok data w') as (resp & w'' & -> & H1 & H2 & H3 & H4).
        pose proof (fetch_calls _ upstream destService param w) as Hc.
        rewrite E in Hc. cbn in Hc. destruct Hc as (_ & Hcon & _).
        exists resp, w''. split; [reflexivity|]. split; [exact H1|].
        split; [split; [intros H; now destruct (H2 H) | now intros [_ Hn]]|].
        split; [exact H3|]. intros H. now rewrite (H4 H).
      * rewrite (odataRoute_Throw _ _ _ _ _ _ _ Hin E).
        destruct (Hko ("Failed to fetch entity '" ++ param ++ "'")
                      (logged ("Error in /odata/" ++ param ++ ":") err w'))
          as (resp & w'' & -> & H1 & H2 & H3 & H4).
        exists resp, w''. split; [reflexivity|]. split; [exact H1|].
        split; [split; [intros H; now destruct (H2 H) | now intros [_ Hn]]|].
        split; [exact H3 | exact H4].
    + unfold odataRoute. rewrite Hin. cbn [negb]. eexists _, w.
      split; [reflexivity|]. cbn [status payload].
      split; [now right; left|].
      split; [split; [intros _; split; [reflexivity|] | reflexivity]|].
      * intros Hc. apply includes_In in Hc. congruence.
      * split; [discriminate | reflexivity].
  - destruct (fetchODataEntity upstream destService entity w)
      as [[data|err] w'] eqn:E.
    + rewrite (entityRoute_Return _ _ _ _ _ _ _ E).
      destruct (Hok data w') as (resp & w'' & -> & H1 & H2 & H3 & H4).
      pose proof (fetch_calls _ upstream destService entity w) as Hc.
      rewrite E in Hc. cbn in Hc. destruct Hc as (_ & Hcon & _).
      exists resp, w''. split; [reflexivity|]. split; [exact H1|].
      split; [split; [intros H; now destruct (H2 H) | now intros [? _]]|].
      split; [exact H3|]. intros H. now rewrite (H4 H).
    + rewrite (entityRoute_Throw _ _ _ _ _ _ _ E).
      destruct (Hko ("Failed to fetch " ++ entity)
                    (logged ("Error in /" ++ entity ++ ":") err w'))
        as (resp & w'' & -> & H1 & H2 & H3 & H4).
      exists resp, w''. split; [reflexivity|]. split; [exact H1|].
      split; [split; [intros H; now destruct (H2 H) | now intros [? _]]|].
      split; [exact H3 | exact H4].
Qed.

(** X6. A route that fetches answers 200 only after all three calls
    were answered: the token request and the lookup were made, the data
    request for [base] (stripped) and the entity got a 2xx answer, and
    the response is exactly the body of that answer. *)
Theorem success_needs_three_answers r param entity w resp w' :
  target_entity r param = Some entity ->
  handler upstream destService r param w = (Return resp, w') ->
  status resp = 200 ->
  exists data tok w2 base st u3,
    payload resp = Json data
    /\ calls w2
       = (calls w
            ++ [tokenRequest destService;
                configRequest destService
                  (or_default (DESTINATION_NAME w) "Products") tok])%list
    /\ upstream (up w2)
         (dataRequest (odataUrl (replace_trailing_slash base) entity))
       = (Replied st data, u3)
    /\ validateStatus st = true
    /\ w' = sent (dataRequest (odataUrl (replace_trailing_slash base) entity))
                 u3 w2.
Proof.
  intros Htarget Hh Hst.
  assert (Hf : exists data,
             fetchODataEntity upstream destService entity w = (Return data, w')
             /\ payload resp = Json data).
  { destruct (fetchODataEntity upstream destService entity w)
      as [[data|err] w1] eqn:E.
    - exists data.
      destruct r as [| | |e]; cbn [target_entity handler] in Htarget, Hh.
      + discriminate.
      + injection Htarget as <-.
        rewrite (productsRoute_Return _ _ _ _ _ _ E) in Hh.
        now injection Hh as <- <-.
      + destruct (includes ALLOWED_ENTITIES param) eqn:Hin; [|discriminate].
        injection Htarget as <-. apply includes_In in Hin.
        rewrite (odataRoute_Return _ _ _ _ _ _ _ Hin E) in Hh.
        now injection Hh as <- <-.
      + injection Htarget as <-.
        rewrite (entityRoute_Return _ _ _ _ _ _ _ E) in Hh.
        now injection Hh as <- <-.
    - exfalso.
      destruct r as [| | |e]; cbn [target_entity handler] in Htarget, Hh.
      + discriminate.
      + injection Htarget as <-.
        rewrite (productsRoute_Throw _ _ _ _ _ _ E) in Hh.
        injection Hh as <- _. discriminate Hst.
      + destruct (includes ALLOWED_ENTITIES param) eqn:Hin; [|discriminate].
        injection Htarget as <-. apply includes_In in Hin.
        rewrite (odataRoute_Throw _ _ _ _ _ _ _ Hin E) in Hh.
        injection Hh as <- _. discriminate Hst.
      + injection Htarget as <-.
        rewrite (entityRoute_Throw _ _ _ _ _ _ _ E) in Hh.
        injection Hh as <- _. discriminate Hst. }
  destruct Hf as (data & Hf & Hp).
  destruct (fetch_Return_inv _ upstream destService entity w data w' Hf)
    as (tok & w2 & base & st & u3 & H).
  now exists data, tok, w2, base, st, u3.
Qed.

(** X7. [replace(/\/$/, "")] takes off exactly the last character when
    it is a slash and nothing otherwise: the input is the output followed
    by that slash, so the output is at most one character shorter and a
    second trailing slash stays. *)
Theorem replace_trailing_slash_spec (s : string) :
  s = replace_trailing_slash s ++ (if ends_with_slash s then "/" else "")
  /\ String.length s
     = (String.length (replace_trailing_slash s)
        + (if ends_with_slash s then 1 else 0))%nat.
Proof.
  induction s as [|c s [IH1 IH2]]; [now split|].
  destruct s as [|d s].
  - cbn. destruct (Ascii.eqb_spec c "/") as [->|Hne]; now split.
  - change (replace_trailing_slash (String c (String d s)))
      with (String c (replace_trailing_slash (String d s))).
    change (ends_with_slash (String c (String d s)))
      with (ends_with_slash (String d s)).
    split.
    + change (String c (String d s)
              = String c (replace_trailing_slash (String d s)
                          ++ (if ends_with_slash (String d s) then "/" else ""))).
      now rewrite <- IH1.
    + change (S (String.length (String d s))
              = S (String.length (replace_trailing_slash (String d s))
                   + (if ends_with_slash (String d s) then 1 else 0))%nat).
      now rewrite <- IH2.
Qed.

(** X8. Whatever a 2xx token answer holds in [access_token] is put
    after "Bearer " in the lookup that follows, converted to a string;
    when the body has no such property (or is not an object) the chain
    does not stop: the lookup is sent with [Bearer undefined]. *)
Theorem token_forwarded_to_lookup entity w st data u1 :
  upstream (up w) (tokenRequest destService) = (Replied st data, u1) ->
  validateStatus st = true ->
  data <> JNull ->
  let bearer :=
    match data with
    | JObj fields =>
        match lookup "access_token" fields with
        | Some token => toString token
        | None => "undefined"
        end
    | _ => "undefined"
    end in
  let lookup_req :=
    {| req_method := GET;
       req_url := uri destService
                    ++ "/destination-configuration/v1/destinations/"
                    ++ or_default (DESTINATION_NAME w) "Products";
       req_data := None;
       req_auth := None;
       req_headers := [("Authorization", "Bearer " ++ bearer)] |} in
  exists rest,
    calls (snd (fetchODataEntity upstream destService entity w))
    = (calls w ++ tokenRequest destService :: lookup_req :: rest)%list.
Proof.
  intros Hup Hst Hnull bearer lookup_req. subst lookup_req.
  set (tok := match data with
              | JObj fields => lookup "access_token" fields
              | _ => undefined
              end).
  assert (Ht : getDestinationToken upstream destService w
               = (Return tok, sent (tokenRequest destService) u1 w)).
  { rewrite getDestinationToken_eq.
    rewrite (bind_Return _ _ _ _ _ (axios_answered _ _ _ _ _ _ _ Hup Hst)).
    subst tok. destruct data; try reflexivity. now contradiction Hnull. }
  destruct (fetch_calls_after_token _ upstream destService entity w _ _ Ht)
    as [rest ->].
  assert (Hb : template tok = bearer).
  { subst tok bearer. now destruct data. }
  exists rest. cbn [calls sent DESTINATION_NAME]. rewrite <- app_assoc.
  unfold configRequest. now rewrite Hb.
Qed.

(** X9. When the chain throws an error that carries a response (the one
    whose status and body the catch clause logs as "Remote error:"), that
    response is what the upstream answered to the last call made, and its
    status is outside 200..299. *)
Theorem remote_error_is_the_last_answer entity w err w' st data :
  fetchODataEntity upstream destService entity w = (Throw err, w') ->
  err_response err = Some (st, data) ->
  validateStatus st = false
  /\ exists w_before req u',
       upstream (up w_before) req = (Replied st data, u')
       /\ w' = sent req u' w_before.
Proof.
  intros Hf Hr.
  destruct (getDestinationToken upstream destService w) as [[tok|e] w1] eqn:Et.
  2:{ rewrite (fetch_token_Throw _ _ _ _ _ _ _ Et) in Hf.
      injection Hf as -> ->. rewrite getDestinationToken_eq in Et.
      destruct (bind_axios_member_Throw _ upstream _ _ _ _ _ _ _ Et Hr)
        as (Hst & u' & Hup & ->).
      split; [exact Hst|]. now exists w, (tokenRequest destService), u'. }
  destruct (getDestinationConfig upstream destService tok w1)
    as [[cfg|e] w2] eqn:Ec.
  2:{ rewrite (fetch_config_Throw _ _ _ _ _ _ _ _ _ Et Ec) in Hf.
      injection Hf as -> ->. rewrite getDestinationConfig_eq in Ec.
      destruct (bind_axios_member_Throw _ upstream _ _ _ _ _ _ _ Ec Hr)
        as (Hst & u' & Hup & ->).
      split; [exact Hst|]. eauto. }
  destruct (config_URL cfg) as [base|] eqn:Eu.
  - rewrite (fetch_data_call _ _ _ _ _ _ _ _ _ _ Et Ec Eu) in Hf.
    destruct (axios_Throw_inv _ upstream _ _ _ _ _ _ Hf Hr)
      as (Hst & u' & Hup & ->).
    split; [exact Hst|]. eauto.
  - destruct (fetch_no_URL _ _ _ entity _ _ _ _ _ Et Ec Eu) as [m Hm].
    rewrite Hm in Hf. injection Hf as <- _. discriminate Hr.
Qed.

End Extras.

(** ** The further properties on the sample deployments *)

Lemma registered_routes_stay_in_allow_list_witness :
  In OdataParam app_routes
  /\ exists extra,
       calls (snd (handler healthy creds OdataParam "Orders" w_busy))
       = (calls w_busy ++ extra)%list
       /\ Forall
            (fun req =>
               req = tokenRequest creds
               \/ (exists tok,
                      req = configRequest creds
                              (or_default (DESTINATION_NAME w_busy) "Products") tok)
               \/ (exists base entity,
                      In entity ALLOWED_ENTITIES
                      /\ req = {| req_method := GET;
                                  req_url := replace_trailing_slash base
                                               ++ "/" ++ entity ++ "?$format=json";
                                  req_data := None;
                                  req_auth := None;
                                  req_headers := [] |}))
            extra.
Proof.
  assert (Hin : In OdataParam app_routes) by (cbn; tauto).
  split; [exact Hin|].
  exact (registered_routes_stay_in_allow_list unit healthy creds
           OdataParam "Orders" w_busy Hin).
Defined.

Lemma handler_ignores_history_witness :
  up w0 = up w_busy
  /\ DESTINATION_NAME w0 = DESTINATION_NAME w_busy
  /\ fst (handler healthy creds (Shortcut "Products") "" w0)
     = fst (handler healthy creds (Shortcut "Products") "" w_busy).
Proof.
  split; [reflexivity|]. split; [reflexivity|].
  exact (proj1 (handler_ignores_history unit healthy creds
                  (Shortcut "Products") "" w0 w_busy eq_refl eq_refl)).
Defined.

Lemma success_needs_three_answers_witness :
  exists data tok w2 base st u3,
    Json products_body = Json data
    /\ calls w2
       = [tokenRequest creds; configRequest creds "Products" tok]
    /\ healthy (up w2)
         (dataRequest (odataUrl (replace_trailing_slash base) "Products"))
       = (Replied st data, u3)
    /\ validateStatus st = true
    /\ snd (handler healthy creds ProductsLower "" w0)
       = sent (dataRequest (odataUrl (replace_trailing_slash base) "Products"))
              u3 w2.
Proof.
  apply (success_needs_three_answers unit healthy creds ProductsLower ""
           "Products" w0 {| status := 200; payload := Json products_body |}
           (snd (handler healthy creds ProductsLower "" w0)));
    reflexivity.
Defined.

Lemma token_forwarded_to_lookup_witness :
  exists rest,
    calls (snd (fetchODataEntity token_garbled creds "Products" w0))
    = tokenRequest creds
      :: {| req_method := GET;
            req_url := "https://dest.example/destination-configuration/v1/destinations/Products";
            req_data := None;
            req_auth := None;
            req_headers := [("Authorization", "Bearer undefined")] |}
      :: rest.
Proof.
  apply (token_forwarded_to_lookup unit token_garbled creds "Products" w0
           200 (JStr "<html>maintenance</html>") tt);
    [reflexivity | reflexivity | discriminate].
Defined.

Lemma remote_error_is_the_last_answer_witness :
  validateStatus 401 = false
  /\ exists w_before req u',
       token_down (up w_before) req
       = (Replied 401 (JObj [("error", JStr "unauthorized")]), u')
       /\ snd (fetchODataEntity token_down creds "Products" w0)
          = sent req u' w_before.
Proof.
  apply (remote_error_is_the_last_answer unit token_down creds "Products" w0
           (AxiosError "Request failed with status code 401"
              (Some (401, JObj [("error", JStr "unauthorized")])))
           (snd (fetchODataEntity token_down creds "Products" w0))
           401 (JObj [("error", JStr "unauthorized")]));
    reflexivity.
Defined.

Lemma handler_status_classes_witness :
  In OdataParam app_routes
  /\ exists resp w',
       handler healthy creds OdataParam "products" w_busy = (Return resp, w')
       /\ (status resp = 200 \/ status resp = 400 \/ status resp = 500)
       /\ (status resp = 400
           <-> OdataParam = OdataParam /\ ~ In "products" ALLOWED_ENTITIES)
       /\ (status resp = 500 -> exists text, payload resp = Text text)
       /\ (status resp <> 500 -> console w' = console w_busy).
Proof.
  assert (Hin : In OdataParam app_routes) by (cbn; tauto).
  split; [exact Hin|].
  exact (handler_status_classes unit healthy creds OdataParam "products"
           w_busy Hin).
Defined.
